(** * d1-rest: REST-to-SQL translation layer and request gates

    A shallow embedding of [src/rest.ts] and [src/index.ts].

    Strings are Rocq strings, read as sequences of code units in the range
    U+0000..U+00FF.  JavaScript values are the inductive [jsval]; a call that
    may throw or return early lives in the three-outcome type [comp];
    the D1 database binding is an explicit collaborator record, and every
    handler reports the statements it sent to it. *)

From Stdlib Require Import ZArith NArith Bool Ascii Lia.
From Stdlib Require String.
From stdpp Require Import base list strings gmap.

Local Open Scope Z_scope.

(** ** JavaScript runtime primitives used by the two source files *)
Module Js.

Definition code (c : ascii) : N := N_of_ascii c.

Definition in_range (lo hi : N) (c : ascii) : bool :=
  (N.leb lo (code c) && N.leb (code c) hi)%bool.

Definition is_digit (c : ascii) : bool := in_range 48 57 c.
Definition is_upper (c : ascii) : bool := in_range 65 90 c.
Definition is_lower (c : ascii) : bool := in_range 97 122 c.

(** The class [[a-zA-Z0-9_]], which is also [\w]. *)
Definition is_word (c : ascii) : bool :=
  (is_lower c || is_upper c || is_digit c || N.eqb (code c) 95)%bool.

(** [\s] and the characters removed by [trim]: TAB, LF, VT, FF, CR, SP, NBSP. *)
Definition is_space (c : ascii) : bool :=
  (in_range 9 13 c || N.eqb (code c) 32 || N.eqb (code c) 160)%bool.

Definition shift_code (d : Z) (c : ascii) : ascii :=
  ascii_of_N (Z.to_N (Z.of_N (code c) + d)).

(** [toLowerCase] on one code unit: A-Z, and the Latin-1 capitals
    U+00C0..U+00DE without the multiplication sign U+00D7. *)
Definition lower_char (c : ascii) : ascii :=
  if (is_upper c || (in_range 192 222 c && negb (N.eqb (code c) 215)))%bool
  then shift_code 32 c else c.

(** [toUpperCase] on one code unit.  U+00DF becomes "SS"; the capitals of
    U+00B5 and U+00FF lie beyond U+00FF and those two units are kept. *)
Definition upper_char (c : ascii) : string :=
  if (is_lower c || (in_range 224 254 c && negb (N.eqb (code c) 247)))%bool
  then String (shift_code (-32) c) EmptyString
  else if N.eqb (code c) 223 then "SS"
  else String c EmptyString.

Fixpoint toLowerCase (s : string) : string :=
  match s with
  | EmptyString => EmptyString
  | String c s' => String (lower_char c) (toLowerCase s')
  end.

Fixpoint toUpperCase (s : string) : string :=
  match s with
  | EmptyString => EmptyString
  | String c s' => upper_char c +:+ toUpperCase s'
  end.

(** [s.replace(/[^a-zA-Z0-9_]/g, '')] *)
Fixpoint strip_non_word (s : string) : string :=
  match s with
  | EmptyString => EmptyString
  | String c s' => if is_word c then String c (strip_non_word s') else strip_non_word s'
  end.

(** [/^\d/.test(s)] *)
Definition starts_with_digit (s : string) : bool :=
  match s with
  | EmptyString => false
  | String c _ => is_digit c
  end.

Fixpoint trimStart (s : string) : string :=
  match s with
  | EmptyString => EmptyString
  | String c s' => if is_space c then trimStart s' else s
  end.

(** Removes trailing white space: a character is kept when it is not white
    space or when something is kept after it. *)
Fixpoint trimEnd (s : string) : string :=
  match s with
  | EmptyString => EmptyString
  | String c s' =>
      match trimEnd s' with
      | EmptyString => if is_space c then EmptyString else String c EmptyString
      | t => String c t
      end
  end.

Definition trim (s : string) : string := trimEnd (trimStart s).

(** [s.split(sep)] for a one-character separator. *)
Fixpoint split (sep : ascii) (s : string) : list string :=
  match s with
  | EmptyString => [EmptyString]
  | String c s' =>
      if Ascii.eqb c sep then EmptyString :: split sep s'
      else match split sep s' with
           | [] => [String c EmptyString]
           | w :: ws => String c w :: ws
           end
  end.

(** [s.includes(c)] for a one-character needle. *)
Fixpoint includes (c : ascii) (s : string) : bool :=
  match s with
  | EmptyString => false
  | String d s' => (Ascii.eqb d c || includes c s')%bool
  end.

(** [parts.join(sep)] *)
Fixpoint join (sep : string) (parts : list string) : string :=
  match parts with
  | [] => EmptyString
  | [p] => p
  | p :: rest => p +:+ sep +:+ join sep rest
  end.

Definition nonempty (s : string) : bool :=
  match s with EmptyString => false | _ => true end.

Definition startsWith (p s : string) : bool := String.prefix p s.

(** [s.substring(n)] *)
Fixpoint substring_from (n : nat) (s : string) : string :=
  match n, s with
  | O, _ => s
  | S n', String _ s' => substring_from n' s'
  | S _, EmptyString => EmptyString
  end.

(** *** Values *)

(** Numbers are the integers and NaN; [VBuiltin] stands for a member that an
    object inherits from [Object.prototype] (a method, for all names but
    [__proto__]). *)
Local Unset Elimination Schemes.
Inductive jsval : Type :=
| VUndefined
| VNull
| VBool (b : bool)
| VNum (z : Z)
| VNaN
| VStr (s : string)
| VArr (l : list jsval)
| VObj (o : list (string * jsval))
| VBuiltin (name : string).
Local Set Elimination Schemes.

Definition truthy (v : jsval) : bool :=
  match v with
  | VUndefined | VNull | VNaN => false
  | VBool b => b
  | VNum z => negb (Z.eqb z 0)
  | VStr s => nonempty s
  | VArr _ | VObj _ | VBuiltin _ => true
  end.

Definition typeof (v : jsval) : string :=
  match v with
  | VUndefined => "undefined"
  | VNull | VArr _ | VObj _ => "object"
  | VBool _ => "boolean"
  | VNum _ | VNaN => "number"
  | VStr _ => "string"
  | VBuiltin _ => "function"
  end.

Definition isArray (v : jsval) : bool :=
  match v with VArr _ => true | _ => false end.

(** Own properties of an object, as an association list in enumeration
    order with pairwise distinct keys. *)
Fixpoint own (o : list (string * jsval)) (k : string) : option jsval :=
  match o with
  | [] => None
  | (k', v) :: o' => if String.eqb k' k then Some v else own o' k
  end.

Definition object_prototype : list string :=
  ["constructor"; "hasOwnProperty"; "isPrototypeOf"; "propertyIsEnumerable";
   "toLocaleString"; "toString"; "valueOf"; "__proto__";
   "__defineGetter__"; "__defineSetter__"; "__lookupGetter__"; "__lookupSetter__"].

Definition inherited (k : string) : bool :=
  existsb (String.eqb k) object_prototype.

(** [Object.keys(o)] and [Object.values(o)] *)
Definition keys (o : list (string * jsval)) : list string := map fst o.
Definition values (o : list (string * jsval)) : list jsval := map snd o.

(** [o[k]] *)
Definition get (o : list (string * jsval)) (k : string) : jsval :=
  match own o k with
  | Some v => v
  | None => if inherited k then VBuiltin k else VUndefined
  end.

(** [k in o] *)
Definition has (o : list (string * jsval)) (k : string) : bool :=
  match own o k with
  | Some _ => true
  | None => inherited k
  end.

(** *** parseInt *)

Definition digit_value (radix : Z) (c : ascii) : option Z :=
  let n := Z.of_N (code c) in
  let v := if is_digit c then n - 48
           else if is_lower c then n - 87
           else if is_upper c then n - 55
           else radix in
  if Z.ltb v radix then Some v else None.

(** Reads the longest prefix of digits; [acc] is [None] until a digit is seen. *)
Fixpoint digits (radix : Z) (acc : option Z) (s : string) : option Z :=
  match s with
  | EmptyString => acc
  | String c s' =>
      match digit_value radix c with
      | Some v => digits radix (Some (match acc with Some a => a * radix + v | None => v end)) s'
      | None => acc
      end
  end.

(** The integer read is kept exact.  JavaScript returns it as a double: the
    two agree up to 2^53 in absolute value; beyond that, for [-0] and for
    the overflow to [Infinity] the double differs, and no statement below
    is about the value of such a parameter. *)
Definition parseInt (s : string) : jsval :=
  let s := trimStart s in
  let '(sign, s) :=
    match s with
    | String "-" s' => (-1, s')
    | String "+" s' => (1, s')
    | _ => (1, s)
    end in
  let '(radix, s) :=
    match s with
    | String "0" (String "x" s') => (16, s')
    | String "0" (String "X" s') => (16, s')
    | _ => (10, s)
    end in
  match digits radix None s with
  | Some v => VNum (sign * v)
  | None => VNaN
  end.

End Js.

(** ** Responses, control flow and the database collaborator *)

(** What [c.json(body, status)] builds, with the headers set through
    [c.header] before it. *)
Record response := Response {
  status : Z;
  headers : list (string * string);
  body : Js.jsval
}.

Definition json (b : Js.jsval) (st : Z) : response :=
  {| status := st; headers := []; body := b |}.

(** A computation continues with a value, throws an [Error] with a message,
    or returns a response from the enclosing handler. *)
Inductive comp (A : Type) : Type :=
| Ok (a : A)
| Throw (message : string)
| Return (r : response).
Arguments Ok {A} a.
Arguments Throw {A} message.
Arguments Return {A} r.

Definition bind {A B} (m : comp A) (k : A -> comp B) : comp B :=
  match m with
  | Ok a => k a
  | Throw msg => Throw msg
  | Return r => Return r
  end.

Notation "x <- m ;; k" := (bind m (fun x => k))
  (at level 100, m at next level, right associativity).

(** The result of an awaited promise of a collaborator. *)
Inductive settled (A : Type) : Type :=
| Fulfilled (a : A)
| Rejected (message : string).
Arguments Fulfilled {A} a.
Arguments Rejected {A} message.

(** [await p] inside a [try] block. *)
Definition await {A} (p : settled A) : comp A :=
  match p with
  | Fulfilled a => Ok a
  | Rejected msg => Throw msg
  end.

(** [xs.map(f)] for an [f] that may throw: the first exception aborts. *)
Fixpoint mapM {A B} (f : A -> comp B) (xs : list A) : comp (list B) :=
  match xs with
  | [] => Ok []
  | x :: xs' => y <- f x ;; ys <- mapM f xs' ;; Ok (y :: ys)
  end.

(** [result.success] and [result.meta.changes] of a D1 [run()]. *)
Record run_result := RunResult { success : bool; changes : Z }.

(** [DB.prepare(sql).bind(...params)] followed by [.all()] or [.run()];
    an error thrown by any of the three calls is [Rejected]. *)
Record D1Database := {
  all : string -> list Js.jsval -> settled Js.jsval;
  run : string -> list Js.jsval -> settled run_result
}.

(** One statement handed to the collaborator. *)
Record statement := Statement { sql : string; params : list Js.jsval }.

(** A handler's response together with the statements it sent. *)
Record outcome := Outcome { resp : response; sent : list statement }.

(** ** src/rest.ts *)
Module Rest.
Import Js.

(** The request as the handlers read it: [c.req.method], the path and the
    query string of [new URL(c.req.url)], the request headers under their
    lower-case names, and the result of [c.req.json()]. *)
Record request := Request {
  method : string;
  pathname : string;
  searchParams : list (string * string);
  req_headers : list (string * string);
  req_json : settled jsval
}.

(** Past the first test [identifier] is a non-empty string. *)
Definition sanitizeIdentifier (identifier : jsval) : comp string :=
  if (negb (truthy identifier) || negb (String.eqb (typeof identifier) "string"))%bool
  then Throw "Invalid identifier"
  else
    let sanitized :=
      match identifier with VStr s => strip_non_word s | _ => EmptyString end in
    if (Nat.eqb (String.length sanitized) 0 || starts_with_digit sanitized)%bool
    then Throw "Invalid identifier: must start with letter or underscore"
    else Ok sanitized.

Definition sanitizeKeyword (identifier : jsval) : comp string :=
  s <- sanitizeIdentifier identifier ;; Ok ("`" +:+ s +:+ "`").

(** [searchParams.get(name)]: the first value under that name. *)
Fixpoint sp_get (sp : list (string * string)) (name : string) : option string :=
  match sp with
  | [] => None
  | (k, v) :: sp' => if String.eqb k name then Some v else sp_get sp' name
  end.

Definition reserved (key : string) : bool :=
  existsb (String.eqb key) ["sort_by"; "order"; "limit"; "offset"].

(** The [for ... of searchParams.entries()] loop of [handleGet]. *)
Fixpoint filters (entries : list (string * string))
    (conditions : list string) (ps : list jsval)
    : comp (list string * list jsval) :=
  match entries with
  | [] => Ok (conditions, ps)
  | (key, value) :: rest =>
      if reserved key then filters rest conditions ps
      else
        sanitizedKey <- sanitizeIdentifier (VStr key) ;;
        filters rest (conditions ++ [sanitizedKey +:+ " = ?"]) (ps ++ [VStr value])
  end.

Definition opt_truthy (o : option string) : bool :=
  match o with Some s => nonempty s | None => false end.

(** [handleGet] up to the call of the collaborator: the query text and the
    parameters to bind. *)
Definition getStatement (tableName : string) (id : option string)
    (sp : list (string * string)) : comp statement :=
  table <- sanitizeKeyword (VStr tableName) ;;
  let query := "SELECT * FROM " +:+ table in
  let start :=
    match id with
    | Some i => if nonempty i then (["id = ?"], [VStr i]) else ([], [])
    | None => ([], [])
    end in
  cp <- filters sp start.1 start.2 ;;
  let conditions := cp.1 in
  let ps := cp.2 in
  let query :=
    if Nat.ltb 0 (length conditions)
    then query +:+ " WHERE " +:+ join " AND " conditions else query in
  let sortBy := sp_get sp "sort_by" in
  query <-
    (match sortBy with
     | Some sb =>
         if nonempty sb then
           let order :=
             match sp_get sp "order" with
             | Some o => if String.eqb (toUpperCase o) "DESC" then "DESC" else "ASC"
             | None => "ASC"
             end in
           col <- sanitizeIdentifier (VStr sb) ;;
           Ok (query +:+ " ORDER BY " +:+ col +:+ " " +:+ order)
         else Ok query
     | None => Ok query
     end) ;;
  let limit := sp_get sp "limit" in
  let qp :=
    match limit with
    | Some l =>
        if nonempty l then
          let query := query +:+ " LIMIT ?" in
          let ps := ps ++ [parseInt l] in
          match sp_get sp "offset" with
          | Some o =>
              if nonempty o then (query +:+ " OFFSET ?", ps ++ [parseInt o])
              else (query, ps)
          | None => (query, ps)
          end
        else (query, ps)
    | None => (query, ps)
    end in
  Ok {| sql := qp.1; params := qp.2 |}.

Definition failure (what : string) (message : string) : response :=
  json (VObj [("error", VStr what); ("details", VStr message)]) 400.

Definition error (what : string) (st : Z) : response :=
  json (VObj [("error", VStr what)]) st.

(** [Object.keys(data)] and friends read the properties of an object value. *)
Definition props (data : jsval) : list (string * jsval) :=
  match data with VObj o => o | _ => [] end.

Definition not_an_object (data : jsval) : bool :=
  (negb (truthy data) || negb (String.eqb (typeof data) "object") || isArray data)%bool.

(** [handlePost] up to the call of the collaborator. *)
Definition postStatement (tableName : string) (body : settled jsval)
    : comp (statement * jsval) :=
  table <- sanitizeKeyword (VStr tableName) ;;
  data <- await body ;;
  if not_an_object data
  then Return (error "Invalid data format: Expected object" 400)
  else if Nat.eqb (length (keys (props data))) 0
  then Return (error "No data provided" 400)
  else
    columns <- mapM (fun k => sanitizeIdentifier (VStr k)) (keys (props data)) ;;
    let placeholders := join ", " (map (fun _ => "?") columns) in
    let query := "INSERT INTO " +:+ table +:+ " (" +:+ join ", " columns
                   +:+ ") VALUES (" +:+ placeholders +:+ ")" in
    let ps := map (fun col => get (props data) col) columns in
    Ok ({| sql := query; params := ps |}, data).

(** [handleUpdate] up to the call of the collaborator. *)
Definition updateStatement (tableName : string) (id : string)
    (body : settled jsval) : comp (statement * jsval) :=
  table <- sanitizeKeyword (VStr tableName) ;;
  data <- await body ;;
  if not_an_object data
  then Return (error "Invalid data format: Expected object" 400)
  else if Nat.eqb (length (keys (props data))) 0
  then Return (error "No data provided for update" 400)
  else if has (props data) "id"
  then Return (error "Cannot update ID field" 400)
  else
    cols <- mapM (fun k => sanitizeIdentifier (VStr k)) (keys (props data)) ;;
    let setColumns := join ", " (map (fun col => col +:+ " = ?") cols) in
    let query := "UPDATE " +:+ table +:+ " SET " +:+ setColumns +:+ " WHERE id = ?" in
    let ps := values (props data) ++ [VStr id] in
    Ok ({| sql := query; params := ps |}, data).

(** [handleDelete] up to the call of the collaborator. *)
Definition deleteStatement (tableName : string) (id : string) : comp statement :=
  table <- sanitizeKeyword (VStr tableName) ;;
  let query := "DELETE FROM " +:+ table +:+ " WHERE id = ?" in
  Ok {| sql := query; params := [VStr id] |}.

Section Handlers.
Variable DB : D1Database.

Definition handleGet (tableName : string) (id : option string)
    (sp : list (string * string)) : outcome :=
  match getStatement tableName id sp with
  | Ok st =>
      {| resp := match all DB (sql st) (params st) with
                 | Fulfilled results => json results 200
                 | Rejected msg => failure "Failed to fetch records" msg
                 end;
         sent := [st] |}
  | Throw msg => {| resp := failure "Failed to fetch records" msg; sent := [] |}
  | Return r => {| resp := r; sent := [] |}
  end.

Definition handlePost (tableName : string) (body : settled jsval) : outcome :=
  match postStatement tableName body with
  | Ok (st, data) =>
      {| resp := match run DB (sql st) (params st) with
                 | Fulfilled result =>
                     json (VObj [("message", VStr "Resource created successfully");
                                 ("data", data);
                                 ("meta", VObj [("success", VBool (success result))])])
                          201
                 | Rejected msg => failure "Failed to create record" msg
                 end;
         sent := [st] |}
  | Throw msg => {| resp := failure "Failed to create record" msg; sent := [] |}
  | Return r => {| resp := r; sent := [] |}
  end.

Definition handleUpdate (tableName : string) (id : string)
    (body : settled jsval) : outcome :=
  match updateStatement tableName id body with
  | Ok (st, data) =>
      {| resp := match run DB (sql st) (params st) with
                 | Fulfilled result =>
                     json (VObj [("message", VStr "Resource updated successfully");
                                 ("data", data);
                                 ("meta", VObj [("success", VBool (success result));
                                                ("changes", VNum (changes result))])])
                          200
                 | Rejected msg => failure "Failed to update record" msg
                 end;
         sent := [st] |}
  | Throw msg => {| resp := failure "Failed to update record" msg; sent := [] |}
  | Return r => {| resp := r; sent := [] |}
  end.

Definition handleDelete (tableName : string) (id : string) : outcome :=
  match deleteStatement tableName id with
  | Ok st =>
      {| resp := match run DB (sql st) (params st) with
                 | Fulfilled result =>
                     if Z.eqb (changes result) 0
                     then error "Record not found" 404
                     else json (VObj [("message", VStr "Resource deleted successfully");
                                      ("meta", VObj [("changes", VNum (changes result))])])
                               200
                 | Rejected msg => failure "Failed to delete record" msg
                 end;
         sent := [st] |}
  | Throw msg => {| resp := failure "Failed to delete record" msg; sent := [] |}
  | Return r => {| resp := r; sent := [] |}
  end.

Definition reply (r : response) : outcome := {| resp := r; sent := [] |}.

(** [url.pathname.split('/').filter(Boolean)] *)
Definition pathParts (c : request) : list string :=
  List.filter nonempty (split "/" (pathname c)).

Definition handleRest (c : request) : outcome :=
  match pathParts c with
  | _ :: tableName :: rest =>
      let id := head rest in
      if String.eqb (method c) "GET" then handleGet tableName id (searchParams c)
      else if String.eqb (method c) "POST" then handlePost tableName (req_json c)
      else if (String.eqb (method c) "PUT" || String.eqb (method c) "PATCH")%bool then
        match id with
        | Some i => handleUpdate tableName i (req_json c)
        | None => reply (error "ID is required for updates" 400)
        end
      else if String.eqb (method c) "DELETE" then
        match id with
        | Some i => handleDelete tableName i
        | None => reply (error "ID is required for deletion" 400)
        end
      else reply (error "Method not allowed" 405)
  | _ => reply (error "Invalid path. Expected format: /rest/{tableName}/{id?}" 400)
  end.

End Handlers.
End Rest.

(** ** The regular expressions of the raw query route

    The four patterns of [dangerousPatterns] are sequences of word
    boundaries, literal characters and [\s+], all under the [i] flag. *)
Module RegExp.
Import Js.

Inductive atom : Type :=
| Boundary            (* \b *)
| Chr (c : ascii)     (* a literal character *)
| Spaces.             (* \s+ *)

(** Canonicalize of the [i] flag without the [u] flag: the upper case when it
    is a single code unit, except that a non-ASCII unit never maps into ASCII. *)
Definition canonicalize (c : ascii) : ascii :=
  match upper_char c with
  | String u EmptyString =>
      if (N.leb 128 (code c) && N.ltb (code u) 128)%bool then c else u
  | _ => c
  end.

Definition is_word_at (o : option ascii) : bool :=
  match o with Some c => is_word c | None => false end.

Definition first (s : string) : option ascii :=
  match s with String c _ => Some c | EmptyString => None end.

(** Does the pattern match at the start of [s], the character before it
    being [prev]? *)
Fixpoint match_here (p : list atom) (prev : option ascii) (s : string) : bool :=
  match p with
  | [] => true
  | Boundary :: p' =>
      (xorb (is_word_at prev) (is_word_at (first s)) && match_here p' prev s)%bool
  | Chr c :: p' =>
      match s with
      | String d s' =>
          (Ascii.eqb (canonicalize c) (canonicalize d) && match_here p' (Some d) s')%bool
      | EmptyString => false
      end
  | Spaces :: p' =>
      (fix spaces (seen : bool) (prev : option ascii) (s : string) : bool :=
         ((seen && match_here p' prev s)
          || match s with
             | String d s' => is_space d && spaces true (Some d) s'
             | EmptyString => false
             end)%bool) false prev s
  end.

Fixpoint search (p : list atom) (prev : option ascii) (s : string) : bool :=
  (match_here p prev s
   || match s with
      | String d s' => search p (Some d) s'
      | EmptyString => false
      end)%bool.

(** [pattern.test(s)] *)
Definition test (p : list atom) (s : string) : bool := search p None s.

Fixpoint lit (s : string) : list atom :=
  match s with
  | EmptyString => []
  | String c s' => Chr c :: lit s'
  end.

End RegExp.

(** ** src/index.ts *)
Module Index.
Import Js Rest.

Definition RATE_LIMIT_WINDOW : Z := 60000.
Definition MAX_REQUESTS : Z := 100.

(** A value of the [requestCounts] map. *)
Record entry := Entry { count : Z; resetTime : Z }.

(** [c.req.header(name)] *)
Fixpoint lookup_header (hs : list (string * string)) (name : string) : option string :=
  match hs with
  | [] => None
  | (k, v) :: hs' => if String.eqb k name then Some v else lookup_header hs' name
  end.

Definition header (c : request) (name : string) : option string :=
  lookup_header (req_headers c) (toLowerCase name).

(** [a || b] on optional strings: the first one that is present and non-empty. *)
Definition or_else (a : option string) (b : option string) : option string :=
  if opt_truthy a then a else b.

Definition clientIP (c : request) : string :=
  match or_else (header c "cf-connecting-ip") (header c "x-forwarded-for") with
  | Some ip => if nonempty ip then ip else "unknown"
  | None => "unknown"
  end.

Definition too_many : response :=
  error "Too many requests. Please try again later." 429.

(** The rate limiting middleware: the new [requestCounts] and, when the
    request is refused, the response; [None] is [next()]. *)
Definition rateLimit (requestCounts : gmap string entry) (now : Z) (c : request)
    : gmap string entry * option response :=
  let ip := clientIP c in
  match requestCounts !! ip with
  | Some clientData =>
      if Z.ltb (resetTime clientData) now
      then (<[ip := {| count := 1; resetTime := now + RATE_LIMIT_WINDOW |}]> requestCounts, None)
      else if Z.leb MAX_REQUESTS (count clientData)
      then (requestCounts, Some too_many)
      else (<[ip := {| count := count clientData + 1;
                       resetTime := resetTime clientData |}]> requestCounts, None)
  | None =>
      (<[ip := {| count := 1; resetTime := now + RATE_LIMIT_WINDOW |}]> requestCounts, None)
  end.

Definition dquote : ascii := ascii_of_N 34.

Definition unauthorized (what : string) : response :=
  {| status := 401;
     headers := [("WWW-Authenticate",
                  "Bearer realm=" +:+ String dquote ("API" +:+ String dquote EmptyString))];
     body := VObj [("error", VStr what)] |}.

(** [authMiddleware]: the refusal, or [None] for [next()]. *)
Definition authMiddleware (secret : string) (c : request) : option response :=
  match header c "Authorization" with
  | Some authHeader =>
      if negb (nonempty authHeader)
      then Some (unauthorized "Unauthorized: Missing authentication token")
      else
        let token := if startsWith "Bearer " authHeader
                     then substring_from 7 authHeader else authHeader in
        if (negb (Nat.eqb (String.length token) (String.length secret))
            || negb (String.eqb token secret))%bool
        then Some (unauthorized "Unauthorized: Invalid authentication token")
        else None
  | None => Some (unauthorized "Unauthorized: Missing authentication token")
  end.

Definition dangerousPatterns : list (list RegExp.atom) :=
  [ RegExp.Boundary :: RegExp.lit "drop" ++ RegExp.Spaces :: RegExp.lit "table" ++ [RegExp.Boundary];
    RegExp.Boundary :: RegExp.lit "drop" ++ RegExp.Spaces :: RegExp.lit "database" ++ [RegExp.Boundary];
    RegExp.Boundary :: RegExp.lit "truncate" ++ [RegExp.Boundary];
    RegExp.Boundary :: RegExp.lit "alter" ++ RegExp.Spaces :: RegExp.lit "table" ++ [RegExp.Boundary] ].

(** [const { query, params } = body]: reading a member of the parsed body.
    Destructuring [null] throws; the two names read here exist on no
    primitive, array or prototype. *)
Definition member (v : jsval) (k : string) : comp jsval :=
  match v with
  | VNull | VUndefined => Throw "Cannot destructure property of null or undefined"
  | VObj o => Ok (get o k)
  | _ => Ok VUndefined
  end.

Definition as_string (v : jsval) : string :=
  match v with VStr s => s | _ => EmptyString end.

(** The handler of [POST /query] up to the call of the collaborator. *)
Definition queryStatement (json_body : settled jsval) : comp statement :=
  body <- await json_body ;;
  query <- member body "query" ;;
  ps <- member body "params" ;;
  if (negb (truthy query) || negb (String.eqb (typeof query) "string"))%bool
  then Return (error "Valid query string is required" 400)
  else
    let query := as_string query in
    let trimmedQuery := toLowerCase (trim query) in
    if (includes ";" trimmedQuery
        && Nat.ltb 1 (length (List.filter (fun s => nonempty (trim s))
                                          (split ";" trimmedQuery))))%bool
    then Return (error "Multiple SQL statements are not allowed" 400)
    else if existsb (fun pattern => RegExp.test pattern query) dangerousPatterns
    then Return (error "Query contains potentially dangerous operations" 403)
    else
      match ps with
      | VUndefined => Ok {| sql := query; params := [] |}
      | VArr l => Ok {| sql := query; params := l |}
      | _ => Return (error "Parameters must be an array" 400)
      end.

(** What the framework's router selects for a request. *)
Inductive route : Type :=
| RestRoute      (* app.all('/rest/*', authMiddleware, handleRest) *)
| QueryRoute     (* app.post('/query', authMiddleware, ...) *)
| NoRoute.

Section App.
Variable DB : D1Database.
(** [await env.SECRET.get()] *)
Variable secret : string.
(** The route matching of the framework. *)
Variable router : request -> route.

Definition handleQuery (c : request) : outcome :=
  match queryStatement (req_json c) with
  | Ok st =>
      {| resp := match all DB (sql st) (params st) with
                 | Fulfilled results => json results 200
                 | Rejected _ => error "Internal server error processing query" 500
                 end;
         sent := [st] |}
  | Throw _ => reply (error "Internal server error processing query" 500)
  | Return r => reply r
  end.

Definition not_found : response :=
  {| status := 404; headers := []; body := VStr "404 Not Found" |}.

(** What the framework's [cors] middleware answers to an OPTIONS request:
    204 without a body. *)
Definition preflight : response :=
  {| status := 204; headers := []; body := VNull |}.

(** [app.fetch]: the middleware registered with [app.use('*', ...)] runs in
    the order of registration, then the handlers of the matched route.
    [secureHeaders] and [cors] come from the framework.  The first only adds
    headers to the response; the second does the same and, for the method
    OPTIONS, answers by itself without calling [next()], so that neither the
    rate limiter nor the auth gate sees such a request.  The headers the two
    add are not part of [response], nor is what the framework does to a
    finished response. *)
Definition fetch (requestCounts : gmap string entry) (now : Z) (c : request)
    : gmap string entry * outcome :=
  if String.eqb (method c) "OPTIONS" then (requestCounts, reply preflight)
  else
    match rateLimit requestCounts now c with
    | (counts, Some refused) => (counts, reply refused)
    | (counts, None) =>
        (counts,
         match router c with
         | RestRoute =>
             match authMiddleware secret c with
             | Some refused => reply refused
             | None => handleRest DB c
             end
         | QueryRoute =>
             match authMiddleware secret c with
             | Some refused => reply refused
             | None => handleQuery c
             end
         | NoRoute => reply not_found
         end)
    end.

End App.
End Index.

(** ** Vocabulary of the specification *)
Module Spec.
Import Js Rest Index.

(** The error kind of the sanitizer: one of its two messages is thrown. *)
Definition InvalidIdentifier {A} (r : comp A) : Prop :=
  r = Throw "Invalid identifier"
  \/ r = Throw "Invalid identifier: must start with letter or underscore".

Fixpoint all_word (s : string) : bool :=
  match s with
  | EmptyString => true
  | String c s' => (is_word c && all_word s')%bool
  end.

(** A sanitized identifier in the sense of the glossary: non-empty, over
    [[A-Za-z0-9_]], not starting with a digit. *)
Definition clean (s : string) : bool :=
  (nonempty s && all_word s && negb (starts_with_digit s))%bool.

(** An output of the identifier sanitizer. *)
Definition sanitized (s : string) : Prop :=
  exists raw, sanitizeIdentifier raw = Ok s.

(** The class [[A-Za-z0-9_]] and the decimal digits, written out. *)
Definition identifier_characters : list ascii :=
  String.list_ascii_of_string
    "abcdefghijklmnopqrstuvwxyzABCDEFGHIJKLMNOPQRSTUVWXYZ0123456789_".

Definition decimal_digits : list ascii :=
  String.list_ascii_of_string "0123456789".

(** The specification's stripping: every character outside the given ones
    is dropped, the others are kept in their order. *)
Fixpoint keep (allowed : list ascii) (s : string) : string :=
  match s with
  | EmptyString => EmptyString
  | String c s' =>
      if existsb (Ascii.eqb c) allowed then String c (keep allowed s')
      else keep allowed s'
  end.

Definition stripped (s : string) : string := keep identifier_characters s.

(** The first character of [s] is a decimal digit. *)
Definition first_is_digit (s : string) : Prop :=
  exists d rest, s = String d rest /\ In d decimal_digits.

(** The statements the CRUD paths may emit, with every interpolated
    identifier made explicit. *)
Inductive condition : Type :=
| IdEquals                          (* the literal [id = ?] *)
| ColumnEquals (column : string).   (* [<column> = ?] *)

Inductive shape : Type :=
| SelectFrom (table : string) (conditions : list condition)
    (order : option (string * bool)) (limit offset : bool)
| InsertInto (table : string) (columns : list string)
| UpdateSet (table : string) (columns : list string)
| DeleteFrom (table : string).

Definition render_condition (c : condition) : string :=
  match c with
  | IdEquals => "id = ?"
  | ColumnEquals column => column +:+ " = ?"
  end.

Definition quoted (table : string) : string := "`" +:+ table +:+ "`".

Definition render (sh : shape) : string :=
  match sh with
  | SelectFrom table conditions order limit offset =>
      "SELECT * FROM " +:+ quoted table
      +:+ (match conditions with
           | [] => EmptyString
           | _ => " WHERE " +:+ join " AND " (map render_condition conditions)
           end)
      +:+ (match order with
           | Some (column, desc) =>
               " ORDER BY " +:+ column +:+ " " +:+ (if desc : bool then "DESC" else "ASC")
           | None => EmptyString
           end)
      +:+ (if limit then " LIMIT ?" +:+ (if offset then " OFFSET ?" else EmptyString)
           else EmptyString)
  | InsertInto table columns =>
      "INSERT INTO " +:+ quoted table +:+ " (" +:+ join ", " columns +:+ ") VALUES ("
      +:+ join ", " (map (fun _ => "?") columns) +:+ ")"
  | UpdateSet table columns =>
      "UPDATE " +:+ quoted table +:+ " SET "
      +:+ join ", " (map (fun column => column +:+ " = ?") columns) +:+ " WHERE id = ?"
  | DeleteFrom table => "DELETE FROM " +:+ quoted table +:+ " WHERE id = ?"
  end.

Definition condition_identifiers (c : condition) : list string :=
  match c with
  | IdEquals => []
  | ColumnEquals column => [column]
  end.

(** The identifiers that come from the request. *)
Definition identifiers (sh : shape) : list string :=
  match sh with
  | SelectFrom table conditions order _ _ =>
      table :: concat (map condition_identifiers conditions)
      ++ match order with Some (column, _) => [column] | None => [] end
  | InsertInto table columns | UpdateSet table columns => table :: columns
  | DeleteFrom table => [table]
  end.

(** The number of [?] in the rendered text. *)
Definition placeholders (sh : shape) : nat :=
  match sh with
  | SelectFrom _ conditions _ limit offset =>
      length conditions
      + (if limit then 1 + (if offset then 1 else 0) else 0)
  | InsertInto _ columns => length columns
  | UpdateSet _ columns => length columns + 1
  | DeleteFrom _ => 1
  end%nat.

Fixpoint all_chars (P : ascii -> bool) (s : string) : bool :=
  match s with
  | EmptyString => true
  | String c s' => (P c && all_chars P s')%bool
  end.

(** The characters of the statement templates: those of identifiers and
    the punctuation [ `*=?,()] with the space. *)
Definition template_char (c : ascii) : bool :=
  (is_word c
   || existsb (Ascii.eqb c) [" "; "`"; "*"; "="; "?"; ","; "("; ")"]%char)%bool.

(** The filter entries of a query string: those outside the reserved set. *)
Definition filter_entries (sp : list (string * string)) : list (string * string) :=
  List.filter (fun e => negb (reserved e.1)) sp.

Definition sanitize_all (names : list string) : comp (list string) :=
  mapM (fun k => sanitizeIdentifier (VStr k)) names.

(** The parameters bound for [limit] and [offset]. *)
Definition page_params (sp : list (string * string)) : list jsval :=
  match sp_get sp "limit" with
  | Some l =>
      if nonempty l then
        parseInt l ::
        match sp_get sp "offset" with
        | Some o => if nonempty o then [parseInt o] else []
        | None => []
        end
      else []
  | None => []
  end.

Definition has_limit (sp : list (string * string)) : bool :=
  opt_truthy (sp_get sp "limit").

(** [offset] is honoured only together with [limit]. *)
Definition has_offset (sp : list (string * string)) : bool :=
  (has_limit sp && opt_truthy (sp_get sp "offset"))%bool.

(** Equality of two strings up to the case of their letters. *)
Fixpoint equal_ignoring_case (a b : string) : bool :=
  match a, b with
  | EmptyString, EmptyString => true
  | String x a', String y b' =>
      (Ascii.eqb (lower_char x) (lower_char y) && equal_ignoring_case a' b')%bool
  | _, _ => false
  end.

(** One code unit [c] against one capital letter [t]: taking the upper case
    of [c] gives [t] exactly when the two agree up to case; the only unit
    whose upper case is longer than one unit is U+00DF. *)
Definition agrees (c t : ascii) : bool :=
  match upper_char c with
  | String u EmptyString =>
      Bool.eqb (Ascii.eqb u t) (Ascii.eqb (lower_char c) (lower_char t))
  | _ => (negb (Ascii.eqb (lower_char c) (lower_char t))
          && String.eqb (upper_char c) "SS")%bool
  end.

(** The sort direction requested by the [order] directive. *)
Definition descending (sp : list (string * string)) : bool :=
  match sp_get sp "order" with
  | Some o => equal_ignoring_case o "DESC"
  | None => false
  end.

(** GET /rest/users?age=25&sort_by=name&order=desc *)
Definition get_users_example : request :=
  {| method := "GET"; pathname := "/rest/users";
     searchParams := [("age", "25"); ("sort_by", "name"); ("order", "desc")];
     req_headers := []; req_json := Rejected "Unexpected end of JSON input" |}.

(** POST /rest/users with the given JSON body *)
Definition post_users (data : jsval) : request :=
  {| method := "POST"; pathname := "/rest/users"; searchParams := [];
     req_headers := []; req_json := Fulfilled data |}.

(** The remaining error kinds, by the response that reports them. *)
Definition ForbiddenFieldUpdate (r : response) : Prop :=
  r = error "Cannot update ID field" 400.

Definition NotFound (r : response) : Prop :=
  r = error "Record not found" 404.

Definition MultiStatementRejected (r : response) : Prop :=
  r = error "Multiple SQL statements are not allowed" 400.

Definition DangerousOperation (r : response) : Prop :=
  r = error "Query contains potentially dangerous operations" 403.

(** PATCH on the given path with the given JSON body *)
Definition patch_request (path : string) (data : jsval) : request :=
  {| method := "PATCH"; pathname := path; searchParams := [];
     req_headers := []; req_json := Fulfilled data |}.

(** DELETE on the given path *)
Definition delete_request (path : string) : request :=
  {| method := "DELETE"; pathname := path; searchParams := [];
     req_headers := []; req_json := Rejected "Unexpected end of JSON input" |}.

(** POST /query with the given JSON body and headers *)
Definition query_request (hs : list (string * string)) (data : jsval) : request :=
  {| method := "POST"; pathname := "/query"; searchParams := [];
     req_headers := hs; req_json := Fulfilled data |}.

Definition drop_then_select : string := "DROP TABLE users; SELECT 1".

(** Requests reaching the rate limiter one after the other, each with the
    reading of the clock at its arrival: the final counters and the verdict
    on each request. *)
Fixpoint serve (requestCounts : gmap string entry) (trace : list (Z * request))
    : gmap string entry * list (option response) :=
  match trace with
  | [] => (requestCounts, [])
  | (now, c) :: rest =>
      let step := rateLimit requestCounts now c in
      let later := serve step.1 rest in
      (later.1, step.2 :: later.2)
  end.

(** The requests of one client in a trace. *)
Definition from_client (ip : string) (trace : list (Z * request)) : list (Z * request) :=
  List.filter (fun r => String.eqb (clientIP r.2) ip) trace.

(** The token a request presents: the [Authorization] header without an
    optional [Bearer ] prefix; none when the header is absent or empty. *)
Definition presented_token (c : request) : option string :=
  match header c "Authorization" with
  | Some h =>
      if nonempty h
      then Some (if startsWith "Bearer " h then substring_from 7 h else h)
      else None
  | None => None
  end.

(** A request from the given client address with the given credentials. *)
Definition client_request (ip : string) (authorization : option string) : request :=
  {| method := "GET"; pathname := "/rest/users"; searchParams := [];
     req_headers := ("cf-connecting-ip", ip)
                    :: match authorization with
                       | Some a => [("authorization", a)]
                       | None => []
                       end;
     req_json := Rejected "Unexpected end of JSON input" |}.

Definition alice : request := client_request "203.0.113.7" None.
Definition bob : request := client_request "198.51.100.2" (Some "Bearer wrong").

(** Ninety-nine requests of [alice] inside one minute, one of [bob] among them. *)
Definition busy_minute : list (Z * request) :=
  repeat (1000, alice) 50 ++ [(2000, bob)] ++ repeat (3000, alice) 49.

(** A name that the sanitizer does not accept. *)
Definition refused (name : string) : Prop :=
  forall s, sanitizeIdentifier (VStr name) <> Ok s.

(** The text of the statement a builder arrives at, when it arrives. *)
Definition text_of (r : comp statement) : comp string :=
  st <- r ;; Ok (sql st).

Definition text_of_write (r : comp (statement * jsval)) : comp string :=
  sd <- r ;; Ok (sql sd.1).

(** Two query strings with the same keys in the same order that differ at
    most in the values of their filter entries. *)
Definition same_but_filter_values (sp1 sp2 : list (string * string)) : Prop :=
  Forall2 (fun e1 e2 => e1.1 = e2.1 /\ (reserved e1.1 = true -> e1.2 = e2.2)) sp1 sp2.

(** Every counter lies between 1 and the limit. *)
Definition within_budget (m : gmap string entry) : Prop :=
  forall ip e, m !! ip = Some e -> 1 <= count e <= MAX_REQUESTS.

(** Two collaborators that answer alike except for the messages of their
    errors. *)
Definition same_but_messages (DB1 DB2 : D1Database) : Prop :=
  forall q ps,
    match all DB1 q ps, all DB2 q ps with
    | Fulfilled r1, Fulfilled r2 => r1 = r2
    | Rejected _, Rejected _ => True
    | _, _ => False
    end.

(** A collaborator that fails with the given message. *)
Definition failing (message : string) : D1Database :=
  {| all := fun _ _ => Rejected message; run := fun _ _ => Rejected message |}.

(** An OPTIONS request from the given client address. *)
Definition preflight_request (ip : string) : request :=
  {| method := "OPTIONS"; pathname := "/rest/users"; searchParams := [];
     req_headers := [("cf-connecting-ip", ip)];
     req_json := Rejected "Unexpected end of JSON input" |}.

(** A collaborator that accepts every statement. *)
Definition accepting (n : Z) : D1Database :=
  {| all := fun _ _ => Fulfilled (VArr []);
     run := fun _ _ => Fulfilled {| success := true; changes := n |} |}.

End Spec.

(** ** The identifier sanitizer *)
Import Js Rest Index Spec.

Lemma nonempty_length (s : string) :
  Nat.eqb (String.length s) 0 = negb (nonempty s).
Proof. destruct s; reflexivity. Qed.

Lemma nonempty_false (s : string) : nonempty s = false <-> s = EmptyString.
Proof. destruct s; simpl; split; congruence. Qed.

Lemma strip_all_word (s : string) : all_word (strip_non_word s) = true.
Proof.
  induction s as [|c s IH]; simpl; [reflexivity|].
  destruct (is_word c) eqn:Hc; simpl; [rewrite Hc|]; exact IH.
Qed.

Lemma strip_fixes_words (s : string) : all_word s = true -> strip_non_word s = s.
Proof.
  induction s as [|c s IH]; simpl; [reflexivity|].
  intros [Hc Hs]%andb_prop. rewrite Hc, IH; [reflexivity | exact Hs].
Qed.

(** On a string the sanitizer is decided by the stripped text alone. *)
Lemma sanitize_string (s : string) :
  sanitizeIdentifier (VStr s) =
    if (negb (nonempty (strip_non_word s)) || starts_with_digit (strip_non_word s))%bool
    then (if nonempty s then Throw "Invalid identifier: must start with letter or underscore"
          else Throw "Invalid identifier")
    else Ok (strip_non_word s).
Proof.
  unfold sanitizeIdentifier. simpl truthy. simpl typeof.
  destruct s as [|c s]; [reflexivity|].
  change (nonempty (String c s)) with true. cbn [negb orb String.eqb].
  rewrite nonempty_length. reflexivity.
Qed.

Lemma sanitize_non_string (raw : jsval) :
  (forall s, raw <> VStr s) -> sanitizeIdentifier raw = Throw "Invalid identifier".
Proof.
  intros H. destruct raw; try reflexivity.
  - unfold sanitizeIdentifier. simpl. destruct b; reflexivity.
  - unfold sanitizeIdentifier. simpl. destruct (Z.eqb z 0); reflexivity.
  - exfalso. eapply H. reflexivity.
Qed.

Lemma sanitize_never_returns (raw : jsval) (r : response) :
  sanitizeIdentifier raw <> Return r.
Proof.
  unfold sanitizeIdentifier.
  repeat match goal with |- context [if ?b then _ else _] => destruct b end; discriminate.
Qed.

Lemma sanitize_throw_invalid (raw : jsval) (msg : string) :
  sanitizeIdentifier raw = Throw msg -> InvalidIdentifier (sanitizeIdentifier raw).
Proof.
  unfold sanitizeIdentifier, InvalidIdentifier.
  repeat match goal with |- context [if ?b then _ else _] => destruct b end;
    intros; auto; discriminate.
Qed.

(** Every output of the sanitizer is clean. *)
Lemma sanitize_ok_clean (raw : jsval) (s : string) :
  sanitizeIdentifier raw = Ok s -> clean s = true.
Proof.
  destruct raw; try (rewrite sanitize_non_string; [discriminate | congruence]).
  rewrite sanitize_string.
  destruct (nonempty (strip_non_word s0)) eqn:Hn; simpl;
    [| destruct (nonempty s0); discriminate].
  destruct (starts_with_digit (strip_non_word s0)) eqn:Hd;
    [destruct (nonempty s0); discriminate|].
  intros [= <-]. unfold clean. rewrite Hn, Hd, strip_all_word. reflexivity.
Qed.

(** The sanitizer is the identity on clean identifiers. *)
Lemma sanitize_clean (s : string) :
  clean s = true -> sanitizeIdentifier (VStr s) = Ok s.
Proof.
  unfold clean. intros [[Hn Hw]%andb_prop Hd]%andb_prop.
  rewrite sanitize_string, (strip_fixes_words s Hw), Hn.
  apply negb_true_iff in Hd. rewrite Hd. reflexivity.
Qed.

Lemma sanitized_iff_clean (s : string) : sanitized s <-> clean s = true.
Proof.
  split.
  - intros [raw H]. exact (sanitize_ok_clean raw s H).
  - intros H. exists (VStr s). exact (sanitize_clean s H).
Qed.

(** The failures of the sanitizer in terms of its own stripping and test. *)
Lemma sanitize_fails_by_strip (raw : jsval) :
  (InvalidIdentifier (sanitizeIdentifier raw) <->
     (forall s, raw <> VStr s)
     \/ raw = VStr EmptyString
     \/ (exists s, raw = VStr s /\
           (strip_non_word s = EmptyString
            \/ starts_with_digit (strip_non_word s) = true)))
  /\ (~ InvalidIdentifier (sanitizeIdentifier raw) ->
       exists s, raw = VStr s /\ sanitizeIdentifier raw = Ok (strip_non_word s)).
Proof.
  destruct raw as [| | b | z | | s | l | o | name].
  all: try (rewrite sanitize_non_string by congruence; split;
            [ split; [ intros _; left; congruence | intros _; left; reflexivity ]
            | intros H; exfalso; apply H; left; reflexivity ]).
  rewrite sanitize_string.
  destruct (nonempty (strip_non_word s)) eqn:Hn; simpl.
  - destruct (starts_with_digit (strip_non_word s)) eqn:Hd.
    + assert (Hs : nonempty s = true) by (destruct s; [discriminate Hn | reflexivity]).
      rewrite Hs. split.
      * split; [| intros _; right; reflexivity].
        intros _. right. right. exists s. split; [reflexivity | right; exact Hd].
      * intros H. exfalso. apply H. right. reflexivity.
    + split.
      * split.
        -- intros [H | H]; discriminate H.
        -- intros [H | [H | [s' [[= <-] [H | H]]]]].
           ++ exfalso. eapply H. reflexivity.
           ++ injection H as ->. discriminate Hn.
           ++ rewrite H in Hn. discriminate Hn.
           ++ congruence.
      * intros _. exists s. split; reflexivity.
  - apply nonempty_false in Hn. split.
    + split.
      * intros _. right. right. exists s. split; [reflexivity | left; exact Hn].
      * intros _. destruct (nonempty s); [right | left]; reflexivity.
    + intros H. exfalso. apply H. destruct (nonempty s); [right | left]; reflexivity.
Qed.

(** The stripping and the digit test of the code are those of the
    specification: the class is exactly the 63 characters of
    [[A-Za-z0-9_]], the digits exactly [0] to [9]. *)
Lemma is_word_class (c : ascii) :
  is_word c = existsb (Ascii.eqb c) identifier_characters.
Proof. destruct c as [[] [] [] [] [] [] [] []]; vm_compute; reflexivity. Qed.

Lemma is_digit_class (c : ascii) :
  is_digit c = existsb (Ascii.eqb c) decimal_digits.
Proof. destruct c as [[] [] [] [] [] [] [] []]; vm_compute; reflexivity. Qed.

Lemma strip_is_stripped (s : string) : strip_non_word s = stripped s.
Proof.
  unfold stripped. induction s as [|c s IH]; [reflexivity|].
  cbn [strip_non_word keep]. rewrite <- is_word_class, IH. reflexivity.
Qed.

Lemma starts_with_digit_iff (s : string) :
  starts_with_digit s = true <-> first_is_digit s.
Proof.
  unfold first_is_digit. destruct s as [|c s]; cbn [starts_with_digit].
  - split; [discriminate | intros (d & rest & H & _); discriminate H].
  - rewrite is_digit_class, existsb_exists. split.
    + intros (d & Hin & He). apply Ascii.eqb_eq in He. subst d.
      exists c, s. split; [reflexivity | exact Hin].
    + intros (d & rest & [= <- <-] & Hin). exists c.
      split; [exact Hin | apply Ascii.eqb_refl].
Qed.

(** C6. [sanitizeIdentifier] fails with InvalidIdentifier if and only if its
    input is not a string or is the empty string, or nothing is left after
    dropping every character outside [[A-Za-z0-9_]], or what is left starts
    with one of the digits [0] to [9]; in every other case it returns the
    input with exactly those characters dropped. *)
Theorem C6_sanitize_fails_iff (raw : jsval) :
  (InvalidIdentifier (sanitizeIdentifier raw) <->
     (forall s, raw <> VStr s)
     \/ raw = VStr EmptyString
     \/ (exists s, raw = VStr s /\
           (stripped s = EmptyString \/ first_is_digit (stripped s))))
  /\ (~ InvalidIdentifier (sanitizeIdentifier raw) ->
       exists s, raw = VStr s /\ sanitizeIdentifier raw = Ok (stripped s)).
Proof.
  destruct (sanitize_fails_by_strip raw) as [Hiff Hok]. split.
  - rewrite Hiff. split.
    + intros [H | [H | (s & Hs & Hwhy)]]; [left; exact H | right; left; exact H |].
      right. right. exists s. split; [exact Hs|].
      rewrite <- strip_is_stripped, <- starts_with_digit_iff. exact Hwhy.
    + intros [H | [H | (s & Hs & Hwhy)]]; [left; exact H | right; left; exact H |].
      right. right. exists s. split; [exact Hs|].
      rewrite strip_is_stripped, starts_with_digit_iff. exact Hwhy.
  - intros Hn. destruct (Hok Hn) as (s & Hs & Hr).
    exists s. split; [exact Hs|]. rewrite <- strip_is_stripped. exact Hr.
Qed.

(** ** The query builder *)

Lemma append_assoc (a b c : string) : (a +:+ b) +:+ c = a +:+ (b +:+ c).
Proof.
  induction a as [|x a IH]; [reflexivity|].
  change (String x ((a +:+ b) +:+ c) = String x (a +:+ (b +:+ c))).
  f_equal. exact IH.
Qed.

Lemma append_empty_r (a : string) : a +:+ EmptyString = a.
Proof.
  induction a as [|x a IH]; [reflexivity|].
  change (String x (a +:+ EmptyString) = String x a).
  f_equal. exact IH.
Qed.

Ltac string_norm := rewrite ?append_assoc, ?append_empty_r.

Lemma mapM_length {A B} (f : A -> comp B) (xs : list A) (ys : list B) :
  mapM f xs = Ok ys -> length ys = length xs.
Proof.
  revert ys. induction xs as [|x xs IH]; intros ys; simpl.
  - intros [= <-]. reflexivity.
  - destruct (f x); simpl; try discriminate.
    destruct (mapM f xs); simpl; try discriminate.
    intros [= <-]. simpl. f_equal. apply IH. reflexivity.
Qed.

(** The loop over the query string collects, in order, one condition and
    one parameter per entry outside the reserved set. *)
Lemma filters_spec (entries : list (string * string)) :
  forall (conditions : list string) (ps : list jsval),
    filters entries conditions ps =
      (cols <- sanitize_all (map fst (filter_entries entries)) ;;
       Ok (conditions ++ map (fun col => col +:+ " = ?") cols,
           ps ++ map (fun e => VStr e.2) (filter_entries entries))).
Proof.
  induction entries as [|[key value] rest IH]; intros conditions ps.
  - simpl. rewrite !app_nil_r. reflexivity.
  - cbn [filters filter_entries List.filter fst].
    destruct (reserved key) eqn:Hr; cbn [negb].
    + apply IH.
    + cbn [map fst sanitize_all mapM].
      destruct (sanitizeIdentifier (VStr key)) as [col | msg | r]; cbn [bind];
        try reflexivity.
      rewrite IH. fold (filter_entries rest). unfold sanitize_all.
      destruct (mapM _ (map fst (filter_entries rest))) as [cols | msg | r];
        cbn [bind]; try reflexivity.
      cbn [map snd]. rewrite <- !app_assoc. reflexivity.
Qed.

(** *** Letter case *)

Lemma agrees_desc (c : ascii) :
  forallb (agrees c) ["D"; "E"; "S"; "C"]%char = true.
Proof. destruct c as [[] [] [] [] [] [] [] []]; vm_compute; reflexivity. Qed.

(** One code unit of the text compared with one letter of ["DESC"]. *)
Lemma upper_head (c t : ascii) (rest s' : string) :
  In t ["D"; "E"; "S"; "C"]%char ->
  String.eqb (upper_char c +:+ rest) (String t s')
    = (Ascii.eqb (lower_char c) (lower_char t) && String.eqb rest s')%bool
  \/ (Ascii.eqb (lower_char c) (lower_char t) = false
      /\ String.eqb (upper_char c +:+ rest) (String t s')
         = (Ascii.eqb "S" t && String.eqb (String "S" rest) s')%bool).
Proof.
  intros Ht. pose proof (agrees_desc c) as Hall.
  assert (Ha : agrees c t = true).
  { rewrite forallb_forall in Hall. apply Hall. exact Ht. }
  clear Hall. unfold agrees in Ha.
  destruct (upper_char c) as [|u [|u' w]] eqn:Hu.
  - apply andb_prop in Ha as [_ Ha]. discriminate Ha.
  - left. apply Bool.eqb_prop in Ha. rewrite <- Ha. reflexivity.
  - right. apply andb_prop in Ha as [Hne Ha]. apply String.eqb_eq in Ha.
    injection Ha as -> -> ->. split; [| reflexivity].
    apply negb_true_iff. exact Hne.
Qed.

Ltac desc_step :=
  cbn [toUpperCase equal_ignoring_case];
  match goal with
  | |- String.eqb (upper_char ?c +:+ ?rest) (String ?t ?s') = _ =>
      destruct (upper_head c t rest s' ltac:(simpl; auto 6)) as [-> | [-> ->]];
      [ destruct (Ascii.eqb (lower_char c) (lower_char t)); [cbn [andb] | reflexivity]
      | reflexivity ]
  end.

(** [order?.toUpperCase() === 'DESC'] holds exactly for the spellings of
    DESC in either letter case. *)
Lemma upper_is_desc (o : string) :
  String.eqb (toUpperCase o) "DESC" = equal_ignoring_case o "DESC".
Proof.
  destruct o as [|c1 o]; [reflexivity|]. desc_step.
  destruct o as [|c2 o]; [reflexivity|]. desc_step.
  destruct o as [|c3 o]; [reflexivity|]. desc_step.
  destruct o as [|c4 o]; [reflexivity|]. desc_step.
  destruct o as [|c5 o]; [reflexivity|].
  cbn [toUpperCase equal_ignoring_case].
  destruct (upper_char c5) as [|u w] eqn:H5; [| reflexivity].
  pose proof (agrees_desc c5) as Ha. cbn [forallb] in Ha.
  apply andb_prop in Ha as [Ha _]. unfold agrees in Ha. rewrite H5 in Ha.
  apply andb_prop in Ha as [_ Ha]. discriminate Ha.
Qed.

Ltac get_shape_done :=
  repeat match goal with |- _ /\ _ => split end;
  first
    [ assumption
    | reflexivity
    | solve [ eexists; split; reflexivity ]
    | solve [ cbn [render]; unfold quoted; string_norm; reflexivity ]
    | solve [ cbn [render]; unfold quoted; string_norm;
              match goal with
              | H : forall o, String.eqb (toUpperCase o) _ = _ |- context [sp_get ?sp "order"] =>
                  destruct (sp_get sp "order") as [o'|];
                  [rewrite H; destruct (equal_ignoring_case o' "DESC")|]
              end; reflexivity ]
    | solve [ rewrite <- ?app_assoc, ?app_nil_r; reflexivity ]
    | solve [ cbn [placeholders]; rewrite ?length_app; cbn [length]; lia ] ].

Lemma where_clause (q : string) (conditions : list string) :
  (if Nat.ltb 0 (length conditions)
   then q +:+ " WHERE " +:+ join " AND " conditions else q)
  = q +:+ match conditions with
          | [] => EmptyString
          | _ => " WHERE " +:+ join " AND " conditions
          end.
Proof. destruct conditions; simpl; [rewrite append_empty_r|]; reflexivity. Qed.

Lemma render_conditions (cols : list string) :
  map render_condition (map ColumnEquals cols) = map (fun col => col +:+ " = ?") cols.
Proof. rewrite map_map. reflexivity. Qed.

Lemma getStatement_shape (tableName : string) (id : option string)
    (sp : list (string * string)) (st : statement) :
  getStatement tableName id sp = Ok st ->
  exists table cols order,
    sanitizeIdentifier (VStr tableName) = Ok table
    /\ sanitize_all (map fst (filter_entries sp)) = Ok cols
    /\ match sp_get sp "sort_by" with
       | Some sb =>
           if nonempty sb
           then exists col, sanitizeIdentifier (VStr sb) = Ok col
                            /\ order = Some (col, descending sp)
           else order = None
       | None => order = None
       end
    /\ sql st = render (SelectFrom table
                          ((if opt_truthy id then [IdEquals] else [])
                           ++ map ColumnEquals cols)
                          order (has_limit sp) (has_offset sp))
    /\ params st = (match id with
                    | Some i => if nonempty i then [VStr i] else []
                    | None => []
                    end)
                   ++ map (fun e => VStr e.2) (filter_entries sp)
                   ++ page_params sp
    /\ length (params st)
       = placeholders (SelectFrom table
                          ((if opt_truthy id then [IdEquals] else [])
                           ++ map ColumnEquals cols)
                          order (has_limit sp) (has_offset sp)).
Proof.
  unfold getStatement, sanitizeKeyword.
  destruct (sanitizeIdentifier (VStr tableName)) as [table | msg | r] eqn:Ht;
    cbn [bind]; try discriminate.
  rewrite filters_spec.
  destruct (sanitize_all (map fst (filter_entries sp))) as [cols | msg | r] eqn:Hc;
    cbn [bind]; try discriminate.
  rewrite where_clause. unfold page_params, has_offset, has_limit, descending.
  set (start := match id with
                | Some i => if nonempty i then (["id = ?"], [VStr i]) else ([], [])
                | None => ([], [])
                end).
  assert (Hstart : start = (map render_condition (if opt_truthy id then [IdEquals] else []),
                            match id with
                            | Some i => if nonempty i then [VStr i] else []
                            | None => []
                            end)).
  { subst start. destruct id as [i|]; [simpl; destruct (nonempty i)|]; reflexivity. }
  rewrite Hstart. clear start Hstart. cbn [fst snd].
  rewrite <- render_conditions, <- map_app.
  set (conds := (if opt_truthy id then [IdEquals] else []) ++ map ColumnEquals cols).
  assert (Hlen : (length (match id with
                          | Some i => if nonempty i then [VStr i] else []
                          | None => []
                          end)
                  + length (map (fun e : string * string => VStr e.2) (filter_entries sp))
                  = length (if opt_truthy id then [IdEquals] else [])
                    + length (map ColumnEquals cols))%nat).
  { rewrite !length_map.
    apply mapM_length in Hc. rewrite length_map in Hc. rewrite Hc.
    destruct id as [i|]; [simpl; destruct (nonempty i)|]; reflexivity. }
  assert (Hwhere : match map render_condition conds with
                   | [] => EmptyString
                   | _ => " WHERE " +:+ join " AND " (map render_condition conds)
                   end
                   = match conds with
                     | [] => EmptyString
                     | _ => " WHERE " +:+ join " AND " (map render_condition conds)
                     end) by (destruct conds; reflexivity).
  rewrite Hwhere. clear Hwhere. subst conds.
  assert (Hdesc : forall o, String.eqb (toUpperCase o) "DESC" = equal_ignoring_case o "DESC")
    by exact upper_is_desc.
  destruct (sp_get sp "sort_by") as [sb|] eqn:Hsb;
    [destruct (nonempty sb) eqn:Hnsb;
       [destruct (sanitizeIdentifier (VStr sb)) as [col | msg | r] eqn:Hcol;
          cbn [bind]; try discriminate |] |];
    cbn [bind];
    (destruct (sp_get sp "limit") as [l|] eqn:Hl; cbn [opt_truthy];
       [destruct (nonempty l) eqn:Hnl;
          (destruct (sp_get sp "offset") as [o|] eqn:Ho; cbn [opt_truthy];
             [destruct (nonempty o) eqn:Hno |]) |]);
    intros [= <-]; cbn [sql params fst snd andb].
  all: try (exists table, cols,
             (Some (col, match sp_get sp "order" with
                         | Some o => equal_ignoring_case o "DESC"
                         | None => false
                         end))).
  all: try (exists table, cols, None).
  all: get_shape_done.
Qed.

Lemma not_an_object_false (data : jsval) :
  not_an_object data = false -> exists o, data = VObj o.
Proof.
  destruct data; try discriminate.
  - unfold not_an_object. simpl. destruct b; discriminate.
  - unfold not_an_object. simpl. destruct (Z.eqb z 0); discriminate.
  - unfold not_an_object. simpl. destruct (nonempty s); discriminate.
  - intros _. eexists. reflexivity.
Qed.

Lemma not_an_object_obj (o : list (string * jsval)) : not_an_object (VObj o) = false.
Proof. reflexivity. Qed.

Lemma postStatement_shape (tableName : string) (body : settled jsval)
    (st : statement) (data : jsval) :
  postStatement tableName body = Ok (st, data) ->
  exists table cols o,
    sanitizeIdentifier (VStr tableName) = Ok table
    /\ body = Fulfilled (VObj o) /\ data = VObj o /\ o <> []
    /\ sanitize_all (keys o) = Ok cols
    /\ sql st = render (InsertInto table cols)
    /\ params st = map (get o) cols
    /\ length (params st) = placeholders (InsertInto table cols).
Proof.
  unfold postStatement, sanitizeKeyword.
  destruct (sanitizeIdentifier (VStr tableName)) as [table | msg | r] eqn:Ht;
    cbn [bind]; try discriminate.
  destruct body as [data' | msg]; cbn [await bind]; try discriminate.
  destruct (not_an_object data') eqn:Hobj; try discriminate.
  destruct (not_an_object_false data' Hobj) as [o ->]. cbn [props].
  destruct (Nat.eqb (length (keys o)) 0) eqn:Hlen; try discriminate.
  fold (sanitize_all (keys o)).
  destruct (sanitize_all (keys o)) as [cols | msg | r] eqn:Hc; cbn [bind];
    try discriminate.
  intros [= <- <-]. exists table, cols, o. cbn [sql params].
  repeat match goal with |- _ /\ _ => split end;
    try reflexivity; try assumption.
  - intros ->. discriminate Hlen.
  - cbn [placeholders]. apply length_map.
Qed.

Lemma updateStatement_shape (tableName id : string) (body : settled jsval)
    (st : statement) (data : jsval) :
  updateStatement tableName id body = Ok (st, data) ->
  exists table cols o,
    sanitizeIdentifier (VStr tableName) = Ok table
    /\ body = Fulfilled (VObj o) /\ data = VObj o /\ o <> []
    /\ has o "id" = false
    /\ sanitize_all (keys o) = Ok cols
    /\ sql st = render (UpdateSet table cols)
    /\ params st = values o ++ [VStr id]
    /\ length (params st) = placeholders (UpdateSet table cols).
Proof.
  unfold updateStatement, sanitizeKeyword.
  destruct (sanitizeIdentifier (VStr tableName)) as [table | msg | r] eqn:Ht;
    cbn [bind]; try discriminate.
  destruct body as [data' | msg]; cbn [await bind]; try discriminate.
  destruct (not_an_object data') eqn:Hobj; try discriminate.
  destruct (not_an_object_false data' Hobj) as [o ->]. cbn [props].
  destruct (Nat.eqb (length (keys o)) 0) eqn:Hlen; try discriminate.
  destruct (has o "id") eqn:Hid; try discriminate.
  fold (sanitize_all (keys o)).
  destruct (sanitize_all (keys o)) as [cols | msg | r] eqn:Hc; cbn [bind];
    try discriminate.
  intros [= <- <-]. exists table, cols, o. cbn [sql params].
  repeat match goal with |- _ /\ _ => split end;
    try reflexivity; try assumption.
  - intros ->. discriminate Hlen.
  - cbn [placeholders]. rewrite length_app. unfold values. rewrite length_map.
    apply mapM_length in Hc. unfold keys in Hc. rewrite length_map in Hc.
    rewrite Hc. reflexivity.
Qed.

Lemma deleteStatement_shape (tableName id : string) (st : statement) :
  deleteStatement tableName id = Ok st ->
  exists table,
    sanitizeIdentifier (VStr tableName) = Ok table
    /\ sql st = render (DeleteFrom table)
    /\ params st = [VStr id].
Proof.
  unfold deleteStatement, sanitizeKeyword.
  destruct (sanitizeIdentifier (VStr tableName)) as [table | msg | r] eqn:Ht;
    cbn [bind]; try discriminate.
  intros [= <-]. exists table. cbn [sql params render]. unfold quoted.
  repeat split.
Qed.

Lemma sanitize_all_sanitized (names cols : list string) :
  sanitize_all names = Ok cols -> Forall sanitized cols.
Proof.
  revert cols. induction names as [|k names IH]; intros cols; cbn [sanitize_all mapM].
  - intros [= <-]. constructor.
  - destruct (sanitizeIdentifier (VStr k)) as [col | msg | r] eqn:Hk; cbn [bind];
      try discriminate.
    fold (sanitize_all names).
    destruct (sanitize_all names) as [cols' | msg | r]; cbn [bind]; try discriminate.
    intros [= <-]. constructor.
    + exists (VStr k). exact Hk.
    + apply IH. reflexivity.
Qed.

Lemma column_conditions (cols : list string) :
  concat (map condition_identifiers (map ColumnEquals cols)) = cols.
Proof. induction cols as [|c cols IH]; simpl; [|rewrite IH]; reflexivity. Qed.

(** *** The alphabet of the rendered text *)

Lemma all_chars_app (P : ascii -> bool) (a b : string) :
  all_chars P (a +:+ b) = (all_chars P a && all_chars P b)%bool.
Proof.
  induction a as [|x a IH]; [reflexivity|].
  change (String x a +:+ b) with (String x (a +:+ b)).
  cbn [all_chars]. rewrite IH, andb_assoc. reflexivity.
Qed.

Lemma all_chars_join (P : ascii -> bool) (sep : string) (parts : list string) :
  all_chars P sep = true ->
  Forall (fun part => all_chars P part = true) parts ->
  all_chars P (join sep parts) = true.
Proof.
  intros Hsep. induction 1 as [|part parts Hp Hps IH]; [reflexivity|].
  cbn [join]. destruct parts as [|q parts]; [exact Hp|].
  rewrite !all_chars_app, Hp, Hsep. exact IH.
Qed.

Lemma clean_template (s : string) :
  clean s = true -> all_chars template_char s = true.
Proof.
  unfold clean. intros [[_ Hw]%andb_prop _]%andb_prop.
  induction s as [|c s IH]; [reflexivity|].
  cbn [all_word] in Hw. apply andb_prop in Hw as [Hc Hs].
  cbn [all_chars]. unfold template_char at 1. rewrite Hc, (IH Hs). reflexivity.
Qed.

Lemma sanitized_template (s : string) :
  sanitized s -> all_chars template_char s = true.
Proof. intros H. apply clean_template, sanitized_iff_clean, H. Qed.

Ltac template_chars :=
  rewrite ?all_chars_app;
  repeat (apply andb_true_intro; split);
  try reflexivity; try assumption.

(** A rendered statement whose identifiers are sanitized has no character
    outside the template alphabet: no quote, semicolon, dash or slash. *)
Lemma render_template (sh : shape) :
  Forall sanitized (identifiers sh) ->
  all_chars template_char (render sh) = true.
Proof.
  intros H. rewrite Forall_forall in H.
  assert (Hid : forall x, In x (identifiers sh) -> all_chars template_char x = true).
  { intros x Hx. apply sanitized_template, H, list_elem_of_In, Hx. }
  clear H.
  assert (Hcols : forall cols : list string,
             (forall x, In x cols -> In x (identifiers sh)) ->
             Forall (fun part => all_chars template_char part = true) cols).
  { intros cols Hsub. apply List.Forall_forall. intros x Hx. apply Hid, Hsub, Hx. }
  destruct sh as [table conditions order limit offset | table columns
                 | table columns | table]; cbn [render identifiers] in *; unfold quoted.
  - assert (Htable : all_chars template_char table = true) by (apply Hid; left; reflexivity).
    assert (Hconds : Forall (fun part => all_chars template_char part = true)
                            (map render_condition conditions)).
    { apply List.Forall_forall. intros part Hpart. apply in_map_iff in Hpart.
      destruct Hpart as (cnd & <- & Hin). destruct cnd as [|column]; [reflexivity|].
      cbn [render_condition]. template_chars. apply Hid. right. apply in_or_app. left.
      apply in_concat. exists [column]. split; [| left; reflexivity].
      apply in_map_iff. exists (ColumnEquals column). split; [reflexivity | exact Hin]. }
    template_chars.
    + destruct conditions; [reflexivity|]. template_chars.
      apply all_chars_join; [reflexivity | exact Hconds].
    + destruct order as [[column desc]|]; [| reflexivity]. template_chars.
      * apply Hid. right. apply in_or_app. right. left. reflexivity.
      * destruct desc; reflexivity.
    + destruct limit; [destruct offset|]; reflexivity.
  - assert (Htable : all_chars template_char table = true) by (apply Hid; left; reflexivity).
    template_chars.
    + apply all_chars_join; [reflexivity|]. apply Hcols. intros x Hx. right. exact Hx.
    + apply all_chars_join; [reflexivity|]. apply List.Forall_forall.
      intros part Hpart. apply in_map_iff in Hpart. destruct Hpart as (x & <- & _).
      reflexivity.
  - assert (Htable : all_chars template_char table = true) by (apply Hid; left; reflexivity).
    template_chars.
    apply all_chars_join; [reflexivity|]. apply List.Forall_forall.
    intros part Hpart. apply in_map_iff in Hpart. destruct Hpart as (x & <- & Hx).
    template_chars. apply Hid. right. exact Hx.
  - assert (Htable : all_chars template_char table = true) by (apply Hid; left; reflexivity).
    template_chars.
Qed.

(** What [handleRest] sends is what the handler of the verb built. *)
Lemma handleRest_sent (DB : D1Database) (c : request) (st : statement) :
  In st (sent (handleRest DB c)) ->
  exists tableName,
    (exists id, getStatement tableName id (searchParams c) = Ok st)
    \/ (exists data, postStatement tableName (req_json c) = Ok (st, data))
    \/ (exists id data, updateStatement tableName id (req_json c) = Ok (st, data))
    \/ (exists id, deleteStatement tableName id = Ok st).
Proof.
  unfold handleRest.
  destruct (pathParts c) as [|p0 [|tableName rest]]; try (intros []).
  intros H. exists tableName.
  destruct (String.eqb (method c) "GET").
  { left. exists (head rest). unfold handleGet in H.
    destruct (getStatement tableName (head rest) (searchParams c)); simpl in H;
      [destruct H as [<- | []]; reflexivity | destruct H | destruct H]. }
  destruct (String.eqb (method c) "POST").
  { right. left. unfold handlePost in H.
    destruct (postStatement tableName (req_json c)) as [[st' data] | |]; simpl in H;
      [destruct H as [<- | []]; exists data; reflexivity | destruct H | destruct H]. }
  destruct (String.eqb (method c) "PUT" || String.eqb (method c) "PATCH")%bool.
  { right. right. left. destruct (head rest) as [i|]; [| destruct H].
    exists i. unfold handleUpdate in H.
    destruct (updateStatement tableName i (req_json c)) as [[st' data] | |]; simpl in H;
      [destruct H as [<- | []]; exists data; reflexivity | destruct H | destruct H]. }
  destruct (String.eqb (method c) "DELETE"); [| destruct H].
  right. right. right. destruct (head rest) as [i|]; [| destruct H].
  exists i. unfold handleDelete in H.
  destruct (deleteStatement tableName i); simpl in H;
    [destruct H as [<- | []]; reflexivity | destruct H | destruct H].
Qed.

(** The shape of every statement sent by the CRUD path. *)
Lemma sent_shape (DB : D1Database) (c : request) (st : statement) :
  In st (sent (handleRest DB c)) ->
  exists sh : shape,
    sql st = render sh
    /\ Forall sanitized (identifiers sh)
    /\ length (params st) = placeholders sh.
Proof.
  intros H. apply handleRest_sent in H.
  destruct H as [tableName [[id H] | [[data H] | [[id [data H]] | [id H]]]]].
  - apply getStatement_shape in H.
    destruct H as (table & cols & order & Ht & Hc & Ho & Hsql & _ & Hlen).
    eexists. split; [exact Hsql|]. split; [| exact Hlen].
    cbn [identifiers]. constructor; [exists (VStr tableName); exact Ht|].
    rewrite map_app, concat_app, column_conditions.
    apply Forall_app. split.
    + apply Forall_app. split.
      * destruct (opt_truthy id); constructor.
      * exact (sanitize_all_sanitized _ _ Hc).
    + destruct order as [[col desc]|]; [| constructor].
      destruct (sp_get (searchParams c) "sort_by") as [sb|];
        [destruct (nonempty sb)|]; try discriminate Ho.
      destruct Ho as (col' & Hsb & [= -> _]). constructor; [| constructor].
      exists (VStr sb). exact Hsb.
  - apply postStatement_shape in H.
    destruct H as (table & cols & o & Ht & _ & _ & _ & Hc & Hsql & _ & Hlen).
    eexists. split; [exact Hsql|]. split; [| exact Hlen].
    cbn [identifiers]. constructor; [exists (VStr tableName); exact Ht|].
    exact (sanitize_all_sanitized _ _ Hc).
  - apply updateStatement_shape in H.
    destruct H as (table & cols & o & Ht & _ & _ & _ & _ & Hc & Hsql & _ & Hlen).
    eexists. split; [exact Hsql|]. split; [| exact Hlen].
    cbn [identifiers]. constructor; [exists (VStr tableName); exact Ht|].
    exact (sanitize_all_sanitized _ _ Hc).
  - apply deleteStatement_shape in H.
    destruct H as (table & Ht & Hsql & Hp).
    exists (DeleteFrom table). split; [exact Hsql|]. split.
    + constructor; [exists (VStr tableName); exact Ht | constructor].
    + rewrite Hp. reflexivity.
Qed.

(** C1. Whatever the verb, a statement that the CRUD path hands to the
    database is the rendering of one of the four statement shapes in which
    every interpolated identifier (table, filter, insert and update columns,
    sort key) is an output of the sanitizer; it carries exactly one bound
    parameter per placeholder; and its text has no character outside the
    identifier characters and the punctuation of the templates.  Request
    data reaches the text only through the sanitizer and is otherwise
    bound. *)
Theorem C1_identifiers_sanitized (DB : D1Database) (c : request) (st : statement) :
  In st (sent (handleRest DB c)) ->
  exists sh : shape,
    sql st = render sh
    /\ Forall sanitized (identifiers sh)
    /\ length (params st) = placeholders sh
    /\ all_chars template_char (sql st) = true.
Proof.
  intros H. destruct (sent_shape DB c st H) as (sh & Hsql & Hid & Hlen).
  exists sh. repeat split; try assumption.
  rewrite Hsql. apply render_template. exact Hid.
Qed.

(** C7. GET /rest/users?age=25&sort_by=name&order=desc sends exactly
    SELECT * FROM `users` WHERE age = ? ORDER BY name DESC bound to ["25"].
    In general the statement of a read has one AND-joined equality condition
    per query-string entry outside the reserved set, on the sanitized key and
    with the entry's value bound in the same order, before one parameter for
    each of LIMIT and OFFSET; the reserved keys give no condition; and an
    [order] value equal to DESC up to letter case sorts descending. *)
Theorem C7_get_filters_and_sort :
  (forall DB : D1Database,
      sent (handleRest DB get_users_example)
      = [ {| sql := "SELECT * FROM `users` WHERE age = ? ORDER BY name DESC";
             params := [VStr "25"] |} ])
  /\ (forall (tableName : string) (id : option string)
             (sp : list (string * string)) (st : statement),
         getStatement tableName id sp = Ok st ->
         exists table cols order,
           sanitizeIdentifier (VStr tableName) = Ok table
           /\ sanitize_all (map fst (filter_entries sp)) = Ok cols
           /\ match sp_get sp "sort_by" with
              | Some sb =>
                  if nonempty sb
                  then exists col, sanitizeIdentifier (VStr sb) = Ok col
                                   /\ order = Some (col, descending sp)
                  else order = None
              | None => order = None
              end
           /\ sql st = render (SelectFrom table
                                 ((if opt_truthy id then [IdEquals] else [])
                                  ++ map ColumnEquals cols)
                                 order (has_limit sp) (has_offset sp))
           /\ exists page,
                params st = (match id with
                             | Some i => if nonempty i then [VStr i] else []
                             | None => []
                             end)
                            ++ map (fun e => VStr e.2) (filter_entries sp)
                            ++ page
                /\ length page
                   = ((if has_limit sp then 1 else 0)
                      + (if has_offset sp then 1 else 0))%nat)
  /\ (forall (sp : list (string * string)) (k v : string),
         In (k, v) (filter_entries sp)
         <-> In (k, v) sp /\ ~ In k ["sort_by"; "order"; "limit"; "offset"])
  /\ (forall (sp : list (string * string)) (o : string),
         sp_get sp "order" = Some o ->
         equal_ignoring_case o "DESC" = true -> descending sp = true).
Proof.
  split; [| split; [| split]].
  - intros DB. reflexivity.
  - intros tableName id sp st H.
    destruct (getStatement_shape _ _ _ _ H)
      as (table & cols & order & Ht & Hc & Ho & Hsql & Hp & _).
    exists table, cols, order. repeat split; try assumption.
    exists (page_params sp). split; [exact Hp|].
    unfold page_params, has_offset, has_limit.
    destruct (sp_get sp "limit") as [l|]; cbn [opt_truthy]; [| reflexivity].
    destruct (nonempty l); cbn [andb]; [| reflexivity].
    destruct (sp_get sp "offset") as [o|]; cbn [opt_truthy]; [| reflexivity].
    destruct (nonempty o); reflexivity.
  - intros sp k v. unfold filter_entries. rewrite filter_In. cbn [fst].
    assert (Hr : reserved k = true <-> In k ["sort_by"; "order"; "limit"; "offset"]).
    { unfold reserved. rewrite existsb_exists. split.
      - intros (x & Hx & He). apply String.eqb_eq in He. subst x. exact Hx.
      - intros Hk. exists k. split; [exact Hk | apply String.eqb_refl]. }
    rewrite negb_true_iff. split; intros [Hin Hk]; split; try exact Hin.
    + intros Hk'. apply Hr in Hk'. congruence.
    + destruct (reserved k); [| reflexivity]. exfalso. apply Hk, Hr. reflexivity.
  - intros sp o Ho Heq. unfold descending. rewrite Ho. exact Heq.
Qed.

(** *** Create *)

Lemma get_own_key (o : list (string * jsval)) :
  List.NoDup (keys o) -> map (get o) (keys o) = values o.
Proof.
  induction o as [|[k v] o IH]; [reflexivity|].
  cbn [keys values map fst snd]. intros Hnd.
  apply NoDup_cons_iff in Hnd as [Hk Hnd]. f_equal.
  - unfold get. cbn [own]. rewrite String.eqb_refl. reflexivity.
  - fold (keys o). fold (values o). rewrite <- (IH Hnd).
    apply map_ext_in. intros k' Hk'. unfold get. cbn [own].
    destruct (String.eqb k k') eqn:He; [| reflexivity].
    apply String.eqb_eq in He. subst k'. contradiction.
Qed.

Lemma sanitize_all_clean (names : list string) :
  forallb clean names = true -> sanitize_all names = Ok names.
Proof.
  induction names as [|k names IH]; [reflexivity|].
  cbn [forallb]. intros [Hk Hs]%andb_prop.
  cbn [sanitize_all mapM]. rewrite (sanitize_clean k Hk). cbn [bind].
  fold (sanitize_all names). rewrite (IH Hs). reflexivity.
Qed.

(** X7. When the keys of the body are already clean identifiers, the insert
    binds the values of the body in key order and answers 201. *)
Lemma handlePost_clean_keys (DB : D1Database) (tableName table : string)
    (o : list (string * jsval)) (result : run_result) :
  sanitizeIdentifier (VStr tableName) = Ok table ->
  o <> [] -> List.NoDup (keys o) -> forallb clean (keys o) = true ->
  run DB (render (InsertInto table (keys o))) (values o) = Fulfilled result ->
  sent (handlePost DB tableName (Fulfilled (VObj o)))
    = [ {| sql := render (InsertInto table (keys o)); params := values o |} ]
  /\ status (resp (handlePost DB tableName (Fulfilled (VObj o)))) = 201.
Proof.
  intros Ht Hne Hnd Hclean Hrun.
  unfold handlePost, postStatement, sanitizeKeyword.
  rewrite Ht. cbn [bind await]. rewrite not_an_object_obj. cbn [props].
  assert (Hlen : Nat.eqb (length (keys o)) 0 = false)
    by (destruct o; [congruence | reflexivity]).
  rewrite Hlen. fold (sanitize_all (keys o)).
  rewrite (sanitize_all_clean _ Hclean). cbn [bind].
  change (map (fun col => get o col) (keys o)) with (map (get o) (keys o)).
  rewrite (get_own_key _ Hnd).
  match goal with
  | |- context [run DB ?q _] => change q with (render (InsertInto table (keys o)))
  end.
  cbn [sql params sent resp]. rewrite Hrun. split; reflexivity.
Qed.

(** C3. At the body {"na-me": "John"} the insert names the sanitized column
    [name] and binds [data["name"]], which is undefined, instead of the value
    "John" of the body: the bound parameters are looked up under the
    sanitized names, not under the keys. *)
Theorem C3_insert_binds_by_sanitized_name (DB : D1Database) :
  sent (handleRest DB (post_users (VObj [("na-me", VStr "John")])))
    = [ {| sql := "INSERT INTO `users` (name) VALUES (?)"; params := [VUndefined] |} ]
  /\ values [("na-me", VStr "John")] = [VStr "John"]
  /\ sent (handleRest DB (post_users (VObj [("name", VStr "John"); ("age", VNum 30)])))
    = [ {| sql := "INSERT INTO `users` (name, age) VALUES (?, ?)";
           params := [VStr "John"; VNum 30] |} ].
Proof. repeat split. Qed.

(** *** Update *)

Lemma own_key (o : list (string * jsval)) (k : string) :
  In k (keys o) -> exists v, own o k = Some v.
Proof.
  induction o as [|[k' v'] o IH]; [intros []|].
  cbn [keys map fst own]. intros [-> | Hin].
  - rewrite String.eqb_refl. eexists. reflexivity.
  - destruct (String.eqb k' k); [eexists; reflexivity | exact (IH Hin)].
Qed.

(** C8, amended. A PUT or PATCH whose body is a non-empty object with an
    [id] key is always answered 400 and never reaches the collaborator; the
    answer is ForbiddenFieldUpdate exactly when the path carries an id and
    the table name passes the sanitizer. *)
Theorem C8_update_rejects_id (DB : D1Database) (c : request)
    (o : list (string * jsval)) :
  method c = "PUT" \/ method c = "PATCH" ->
  req_json c = Fulfilled (VObj o) ->
  In "id" (keys o) ->
  status (resp (handleRest DB c)) = 400
  /\ sent (handleRest DB c) = []
  /\ (forall p tableName i rest table,
        pathParts c = p :: tableName :: i :: rest ->
        sanitizeIdentifier (VStr tableName) = Ok table ->
        ForbiddenFieldUpdate (resp (handleRest DB c)))
  /\ (ForbiddenFieldUpdate (resp (handleRest DB c)) ->
      exists p tableName i rest table,
        pathParts c = p :: tableName :: i :: rest
        /\ sanitizeIdentifier (VStr tableName) = Ok table).
Proof.
  intros Hm Hbody Hid.
  assert (Hhas : has o "id" = true).
  { destruct (own_key o "id" Hid) as [v Hv]. unfold has. rewrite Hv. reflexivity. }
  assert (Hlen : Nat.eqb (length (keys o)) 0 = false).
  { destruct o; [destruct Hid | reflexivity]. }
  assert (Hupd : forall tableName i,
             status (resp (handleUpdate DB tableName i (req_json c))) = 400
             /\ sent (handleUpdate DB tableName i (req_json c)) = []
             /\ (forall table, sanitizeIdentifier (VStr tableName) = Ok table ->
                   ForbiddenFieldUpdate (resp (handleUpdate DB tableName i (req_json c))))
             /\ (ForbiddenFieldUpdate (resp (handleUpdate DB tableName i (req_json c))) ->
                 exists table, sanitizeIdentifier (VStr tableName) = Ok table)).
  { intros tableName i. unfold handleUpdate, updateStatement, sanitizeKeyword.
    rewrite Hbody.
    destruct (sanitizeIdentifier (VStr tableName)) as [table | msg | r] eqn:Ht;
      cbn [bind await].
    - rewrite not_an_object_obj. cbn [props]. rewrite Hlen, Hhas.
      split; [reflexivity|]. split; [reflexivity|].
      split; [intros table' _; reflexivity|]. intros _. exists table. reflexivity.
    - split; [reflexivity|]. split; [reflexivity|].
      split; [intros table [=]|]. intros H. discriminate H.
    - exfalso. exact (sanitize_never_returns _ _ Ht). }
  assert (Hverb : handleRest DB c =
                  match pathParts c with
                  | _ :: tableName :: rest =>
                      match head rest with
                      | Some i => handleUpdate DB tableName i (req_json c)
                      | None => reply (error "ID is required for updates" 400)
                      end
                  | _ => reply (error "Invalid path. Expected format: /rest/{tableName}/{id?}" 400)
                  end).
  { unfold handleRest. destruct Hm as [-> | ->]; reflexivity. }
  rewrite Hverb. clear Hverb.
  destruct (pathParts c) as [|p0 [|tableName [|i rest]]]; cbn [head].
  - split; [reflexivity|]. split; [reflexivity|].
    split; [intros ? ? ? ? ? [=] | intros H; discriminate H].
  - split; [reflexivity|]. split; [reflexivity|].
    split; [intros ? ? ? ? ? [=] | intros H; discriminate H].
  - split; [reflexivity|]. split; [reflexivity|].
    split; [intros ? ? ? ? ? [=] | intros H; discriminate H].
  - destruct (Hupd tableName i) as (Hs & Hsent & Hf & Hb).
    split; [exact Hs|]. split; [exact Hsent|]. split.
    + intros p tn i' rest' table [= _ <- _ _] Ht. exact (Hf table Ht).
    + intros H. destruct (Hb H) as [table Ht].
      exists p0, tableName, i, rest, table. split; [reflexivity | exact Ht].
Qed.

(** C8 as the specification words it fails where the table segment is
    refused by the sanitizer: PATCH /rest/1abc/5 with body {"id": 9} is
    answered with the sanitizer's error, not with ForbiddenFieldUpdate. *)
Lemma C8_invalid_table_counterexample :
  ~ (forall (DB : D1Database) (c : request) (o : list (string * jsval)),
        method c = "PUT" \/ method c = "PATCH" ->
        req_json c = Fulfilled (VObj o) ->
        In "id" (keys o) ->
        ForbiddenFieldUpdate (resp (handleRest DB c))
        /\ sent (handleRest DB c) = []).
Proof.
  intros H.
  destruct (H (accepting 1) (patch_request "/rest/1abc/5" (VObj [("id", VNum 9)]))
              [("id", VNum 9)]) as [Hf _].
  - right. reflexivity.
  - reflexivity.
  - left. reflexivity.
  - discriminate Hf.
Qed.

(** *** Delete *)

(** C9. A DELETE with a path-embedded id is answered NotFound (404) exactly
    when the collaborator was asked to delete and reported zero affected
    rows; when it reported a non-zero count the answer is the success
    message together with that count. *)
Theorem C9_delete_not_found_iff (DB : D1Database) (c : request)
    (p tableName i : string) (rest : list string) :
  method c = "DELETE" ->
  pathParts c = p :: tableName :: i :: rest ->
  (status (resp (handleRest DB c)) = 404 <->
     exists table result,
       sanitizeIdentifier (VStr tableName) = Ok table
       /\ sent (handleRest DB c)
          = [ {| sql := render (DeleteFrom table); params := [VStr i] |} ]
       /\ run DB (render (DeleteFrom table)) [VStr i] = Fulfilled result
       /\ changes result = 0)
  /\ (status (resp (handleRest DB c)) = 404 -> NotFound (resp (handleRest DB c)))
  /\ (forall table result,
        sanitizeIdentifier (VStr tableName) = Ok table ->
        run DB (render (DeleteFrom table)) [VStr i] = Fulfilled result ->
        changes result <> 0 ->
        resp (handleRest DB c)
        = json (VObj [("message", VStr "Resource deleted successfully");
                      ("meta", VObj [("changes", VNum (changes result))])]) 200).
Proof.
  intros Hm Hpath.
  assert (Hverb : handleRest DB c = handleDelete DB tableName i).
  { unfold handleRest. rewrite Hpath, Hm. reflexivity. }
  rewrite Hverb. clear Hverb.
  unfold handleDelete, deleteStatement, sanitizeKeyword.
  destruct (sanitizeIdentifier (VStr tableName)) as [table | msg | r] eqn:Ht;
    cbn [bind].
  - change ("DELETE FROM " +:+ ("`" +:+ table +:+ "`") +:+ " WHERE id = ?")
      with (render (DeleteFrom table)).
    cbn [sql params resp sent].
    destruct (run DB (render (DeleteFrom table)) [VStr i]) as [result | msg] eqn:Hrun.
    + destruct (Z.eqb (changes result) 0) eqn:Hz.
      * apply Z.eqb_eq in Hz. repeat split.
        -- intros _. exists table, result. repeat split; assumption.
        -- intros table' result' [= <-] Hr Hne. rewrite Hrun in Hr.
           injection Hr as <-. contradiction.
      * apply Z.eqb_neq in Hz. repeat split.
        -- intros [=].
        -- intros (table' & result' & [= <-] & _ & Hr & Hz'). rewrite Hrun in Hr.
           injection Hr as <-. contradiction.
        -- intros [=].
        -- intros table' result' [= <-] Hr _. rewrite Hrun in Hr.
           injection Hr as <-. reflexivity.
    + repeat split.
      * intros [=].
      * intros (table' & result' & [= <-] & _ & Hr & _). rewrite Hrun in Hr.
        discriminate Hr.
      * intros [=].
      * intros table' result' [= <-] Hr. rewrite Hrun in Hr. discriminate Hr.
  - repeat split.
    + intros [=].
    + intros (table' & result' & [=] & _).
    + intros [=].
    + intros table' result' [=].
  - exfalso. exact (sanitize_never_returns _ _ Ht).
Qed.

(** ** The raw query route *)

Lemma lower_char_space (c : ascii) : is_space (lower_char c) = is_space c.
Proof. destruct c as [[] [] [] [] [] [] [] []]; vm_compute; reflexivity. Qed.

Lemma trimStart_lower (s : string) :
  toLowerCase (trimStart s) = trimStart (toLowerCase s).
Proof.
  induction s as [|c s IH]; [reflexivity|].
  cbn [trimStart toLowerCase]. rewrite lower_char_space.
  destruct (is_space c); [exact IH | reflexivity].
Qed.

Lemma trimEnd_lower (s : string) :
  toLowerCase (trimEnd s) = trimEnd (toLowerCase s).
Proof.
  induction s as [|c s IH]; [reflexivity|].
  cbn [trimEnd toLowerCase]. rewrite <- IH, lower_char_space.
  destruct (trimEnd s) as [|d t]; cbn [toLowerCase]; [| reflexivity].
  destruct (is_space c); reflexivity.
Qed.

(** Trimming and lowering the case commute. *)
Lemma trim_lower (s : string) : toLowerCase (trim s) = trim (toLowerCase s).
Proof. unfold trim. rewrite trimEnd_lower, trimStart_lower. reflexivity. Qed.

Lemma equal_ignoring_case_lower (a b : string) :
  equal_ignoring_case a b = true -> toLowerCase a = toLowerCase b.
Proof.
  revert b. induction a as [|x a IH]; intros [|y b]; cbn; try discriminate.
  - reflexivity.
  - intros [Hc Hs]%andb_prop. apply Ascii.eqb_eq in Hc. rewrite Hc, (IH b Hs).
    reflexivity.
Qed.

(** C2, amended. A body whose query is "DROP TABLE users; SELECT 1" in any
    letter case is refused before the collaborator is reached, and the
    refusal is MultiStatementRejected (400): the check for several
    statements runs before the denylist. *)
Theorem C2_drop_then_select_rejected (DB : D1Database) (c : request)
    (o : list (string * jsval)) (q : string) :
  req_json c = Fulfilled (VObj o) ->
  get o "query" = VStr q ->
  equal_ignoring_case q drop_then_select = true ->
  MultiStatementRejected (resp (handleQuery DB c))
  /\ status (resp (handleQuery DB c)) = 400
  /\ sent (handleQuery DB c) = [].
Proof.
  intros Hbody Hq Hcase.
  assert (Hlow : toLowerCase (trim q) = "drop table users; select 1").
  { rewrite trim_lower, (equal_ignoring_case_lower _ _ Hcase). reflexivity. }
  assert (Hne : nonempty q = true).
  { destruct q; [discriminate Hcase | reflexivity]. }
  unfold handleQuery, queryStatement.
  rewrite Hbody. cbn [await bind member]. rewrite Hq.
  cbn [truthy typeof as_string]. rewrite Hne, Hlow.
  repeat split.
Qed.

(** C2 as the specification words it fails at the very text it names: the
    answer is 400, not DangerousOperation (403). *)
Lemma C2_status_counterexample :
  resp (handleQuery (accepting 1)
          (query_request [] (VObj [("query", VStr drop_then_select)])))
    = error "Multiple SQL statements are not allowed" 400
  /\ ~ DangerousOperation
        (resp (handleQuery (accepting 1)
                 (query_request [] (VObj [("query", VStr drop_then_select)])))).
Proof. split; [reflexivity | intros H; discriminate H]. Qed.

(** A single destructive statement is what the denylist answers 403 to. *)
Lemma handleQuery_drop_table (DB : D1Database) :
  handleQuery DB (query_request [] (VObj [("query", VStr "DROP TABLE users;")]))
  = reply (error "Query contains potentially dangerous operations" 403).
Proof. reflexivity. Qed.

(** ** The rate limiter *)

Lemma rateLimit_exhausted (m : gmap string entry) (now : Z) (c : request) (e : entry) :
  m !! clientIP c = Some e ->
  MAX_REQUESTS <= count e -> now <= resetTime e ->
  rateLimit m now c = (m, Some too_many).
Proof.
  intros He Hc Ht. unfold rateLimit. rewrite He.
  destruct (Z.ltb_spec (resetTime e) now); [lia|].
  destruct (Z.leb_spec MAX_REQUESTS (count e)); [reflexivity | lia].
Qed.

Lemma rateLimit_expired (m : gmap string entry) (now : Z) (c : request) (e : entry) :
  m !! clientIP c = Some e ->
  resetTime e < now ->
  rateLimit m now c
  = (<[clientIP c := {| count := 1; resetTime := now + RATE_LIMIT_WINDOW |}]> m, None).
Proof.
  intros He Ht. unfold rateLimit. rewrite He.
  destruct (Z.ltb_spec (resetTime e) now); [reflexivity | lia].
Qed.

Lemma rateLimit_below (m : gmap string entry) (now : Z) (c : request) (e : entry) :
  m !! clientIP c = Some e ->
  count e < MAX_REQUESTS -> now <= resetTime e ->
  rateLimit m now c
  = (<[clientIP c := {| count := count e + 1; resetTime := resetTime e |}]> m, None).
Proof.
  intros He Hc Ht. unfold rateLimit. rewrite He.
  destruct (Z.ltb_spec (resetTime e) now); [lia|].
  destruct (Z.leb_spec MAX_REQUESTS (count e)); [lia | reflexivity].
Qed.

Lemma rateLimit_first (m : gmap string entry) (now : Z) (c : request) :
  m !! clientIP c = None ->
  rateLimit m now c
  = (<[clientIP c := {| count := 1; resetTime := now + RATE_LIMIT_WINDOW |}]> m, None).
Proof. intros He. unfold rateLimit. rewrite He. reflexivity. Qed.

(** A request leaves the counters of the other clients alone. *)
Lemma rateLimit_other (m : gmap string entry) (now : Z) (c : request) (ip : string) :
  clientIP c <> ip -> (rateLimit m now c).1 !! ip = m !! ip.
Proof.
  intros Hne. unfold rateLimit.
  destruct (m !! clientIP c) as [e|]; cbn [fst].
  - destruct (Z.ltb (resetTime e) now); cbn [fst];
      [apply lookup_insert_ne; exact Hne|].
    destruct (Z.leb MAX_REQUESTS (count e)); cbn [fst];
      [reflexivity | apply lookup_insert_ne; exact Hne].
  - apply lookup_insert_ne. exact Hne.
Qed.

Lemma from_client_Forall (P : Z * request -> Prop) (ip : string)
    (trace : list (Z * request)) :
  Forall P trace -> Forall P (from_client ip trace).
Proof.
  unfold from_client. induction 1 as [|r trace Hr Ht IH]; cbn [List.filter].
  - constructor.
  - destruct (String.eqb (clientIP r.2) ip); [constructor; assumption | assumption].
Qed.

Lemma serve_app (m : gmap string entry) (a b : list (Z * request)) :
  serve m (a ++ b)
  = ((serve (serve m a).1 b).1, (serve m a).2 ++ (serve (serve m a).1 b).2).
Proof.
  revert m. induction a as [|[now c] a IH]; intros m.
  - cbn [serve app fst snd]. destruct (serve m b). reflexivity.
  - cbn [serve app fst snd]. rewrite IH. reflexivity.
Qed.

(** Inside its window a client with budget left is served and counted,
    whatever the other clients do in between. *)
Lemma serve_within_window (ip : string) (R : Z) (trace : list (Z * request)) :
  forall (m : gmap string entry) (k : Z),
    m !! ip = Some {| count := k; resetTime := R |} ->
    k + Z.of_nat (length (from_client ip trace)) <= MAX_REQUESTS ->
    Forall (fun r => r.1 <= R) (from_client ip trace) ->
    (serve m trace).1 !! ip
      = Some {| count := k + Z.of_nat (length (from_client ip trace)); resetTime := R |}
    /\ length (serve m trace).2 = length trace
    /\ Forall (fun rv => clientIP rv.1.2 = ip -> rv.2 = None)
              (combine trace (serve m trace).2).
Proof.
  induction trace as [|[now c] trace IH]; intros m k Hm Hk Hw.
  - cbn. rewrite Z.add_0_r. repeat split; [exact Hm | constructor].
  - cbn [serve fst snd from_client List.filter] in *.
    fold (from_client ip trace) in *.
    destruct (String.eqb (clientIP c) ip) eqn:Hip.
    + apply String.eqb_eq in Hip. cbn [length] in Hk.
      apply Forall_cons in Hw as [Hnow Hw]. cbn [fst] in Hnow.
      rewrite <- Hip in Hm.
      rewrite (rateLimit_below m now c _ Hm) by (cbn [count resetTime]; lia).
      cbn [fst snd count resetTime]. rewrite Hip.
      destruct (IH (<[ip := {| count := k + 1; resetTime := R |}]> m) (k + 1))
        as (Hl & Hn & Hv).
      * apply lookup_insert_eq.
      * lia.
      * exact Hw.
      * repeat split.
        -- rewrite Hl. f_equal. f_equal. cbn [length]. lia.
        -- cbn [length]. rewrite Hn. reflexivity.
        -- cbn [combine]. constructor; [intros _; reflexivity | exact Hv].
    + apply String.eqb_neq in Hip.
      destruct (IH (rateLimit m now c).1 k) as (Hl & Hn & Hv).
      * rewrite rateLimit_other by exact Hip. exact Hm.
      * exact Hk.
      * exact Hw.
      * repeat split.
        -- exact Hl.
        -- cbn [length]. rewrite Hn. reflexivity.
        -- cbn [combine]. constructor; [| exact Hv].
           cbn [fst snd]. intros Heq. contradiction.
Qed.

(** C5. With a limit of 100 requests per window of 60000 ms: a request that
    finds its client's entry at the limit inside the window is answered 429
    and changes no counter; a request arriving after [resetTime] is let
    through and replaces the entry by count 1 and a new [resetTime].  Hence,
    for a client without an entry, the first 100 of its requests inside the
    window opened by its first one are let through, the 101st is answered
    429, and its first request after the window is let through and resets
    the counter. *)
Theorem C5_rate_limiter :
  (RATE_LIMIT_WINDOW = 60000 /\ MAX_REQUESTS = 100 /\ status too_many = 429)
  /\ (forall (m : gmap string entry) (now : Z) (c : request) (e : entry),
         m !! clientIP c = Some e ->
         MAX_REQUESTS <= count e -> now <= resetTime e ->
         rateLimit m now c = (m, Some too_many))
  /\ (forall (m : gmap string entry) (now : Z) (c : request) (e : entry),
         m !! clientIP c = Some e ->
         resetTime e < now ->
         rateLimit m now c
         = (<[clientIP c := {| count := 1; resetTime := now + RATE_LIMIT_WINDOW |}]> m,
            None))
  /\ (forall (m : gmap string entry) (ip : string) (t0 : Z) (c0 : request)
             (mid : list (Z * request)) (t : Z) (c : request),
         m !! ip = None ->
         clientIP c0 = ip -> clientIP c = ip ->
         length (from_client ip mid) = 99%nat ->
         Forall (fun r => r.1 <= t0 + RATE_LIMIT_WINDOW) (from_client ip mid) ->
         t <= t0 + RATE_LIMIT_WINDOW ->
         exists verdicts,
           (serve m ((t0, c0) :: mid ++ [(t, c)])).2
             = None :: verdicts ++ [Some too_many]
           /\ length verdicts = length mid
           /\ Forall (fun rv => clientIP rv.1.2 = ip -> rv.2 = None) (combine mid verdicts)
           /\ (serve m ((t0, c0) :: mid ++ [(t, c)])).1 !! ip
              = Some {| count := 100; resetTime := t0 + RATE_LIMIT_WINDOW |}
           /\ (forall (t' : Z) (c' : request),
                 clientIP c' = ip -> t0 + RATE_LIMIT_WINDOW < t' ->
                 rateLimit (serve m ((t0, c0) :: mid ++ [(t, c)])).1 t' c'
                 = (<[ip := {| count := 1; resetTime := t' + RATE_LIMIT_WINDOW |}]>
                      (serve m ((t0, c0) :: mid ++ [(t, c)])).1,
                    None))).
Proof.
  split; [repeat split|]. split; [exact rateLimit_exhausted|].
  split; [exact rateLimit_expired|].
  intros m ip t0 c0 mid t c Hm H0 Hc Hn Hw Ht.
  cbn [serve fst snd]. rewrite <- H0 in Hm.
  rewrite (rateLimit_first m t0 c0 Hm). cbn [fst snd]. rewrite H0.
  set (m1 := <[ip := {| count := 1; resetTime := t0 + RATE_LIMIT_WINDOW |}]> m).
  rewrite serve_app. cbn [fst snd].
  destruct (serve_within_window ip (t0 + RATE_LIMIT_WINDOW) mid m1 1)
    as (Hl & Hlen & Hv).
  { subst m1. apply lookup_insert_eq. }
  { rewrite Hn. unfold MAX_REQUESTS. lia. }
  { exact Hw. }
  rewrite Hn in Hl. change (1 + Z.of_nat 99) with 100 in Hl.
  set (m2 := (serve m1 mid).1) in *.
  assert (Hlast : rateLimit m2 t c = (m2, Some too_many)).
  { rewrite <- Hc in Hl. apply (rateLimit_exhausted m2 t c _ Hl);
      cbn [count resetTime]; [unfold MAX_REQUESTS; lia | exact Ht]. }
  cbn [serve fst snd]. rewrite Hlast. cbn [fst snd].
  exists (serve m1 mid).2. repeat split.
  - exact Hlen.
  - exact Hv.
  - exact Hl.
  - intros t' c' Hc' Ht'. rewrite <- Hc' in Hl.
    rewrite (rateLimit_expired m2 t' c' _ Hl) by (cbn [resetTime]; exact Ht').
    rewrite Hc'. reflexivity.
Qed.

(** ** The auth gate and the order of the gates *)

Lemma token_mismatch (token secret : string) :
  (negb (Nat.eqb (String.length token) (String.length secret))
   || negb (String.eqb token secret))%bool
  = negb (String.eqb token secret).
Proof.
  destruct (String.eqb token secret) eqn:He; [| apply orb_true_r].
  apply String.eqb_eq in He. subst token. rewrite Nat.eqb_refl. reflexivity.
Qed.

(** The gate in terms of the presented token. *)
Lemma authMiddleware_spec (secret : string) (c : request) :
  authMiddleware secret c =
    match presented_token c with
    | Some token =>
        if String.eqb token secret then None
        else Some (unauthorized "Unauthorized: Invalid authentication token")
    | None => Some (unauthorized "Unauthorized: Missing authentication token")
    end.
Proof.
  unfold authMiddleware, presented_token.
  destruct (header c "Authorization") as [h|]; [| reflexivity].
  destruct (nonempty h); [| reflexivity]. cbn [negb].
  rewrite token_mismatch.
  destruct (String.eqb _ secret); reflexivity.
Qed.

(** The gate lets a request through exactly when it presents the secret. *)
Lemma authMiddleware_passes (secret : string) (c : request) :
  authMiddleware secret c = None <-> presented_token c = Some secret.
Proof.
  rewrite authMiddleware_spec.
  destruct (presented_token c) as [token|]; [| split; discriminate].
  destruct (String.eqb token secret) eqn:He.
  - apply String.eqb_eq in He. rewrite He. split; reflexivity.
  - apply String.eqb_neq in He. split; [discriminate|]. intros [= H]. contradiction.
Qed.

(** Every refusal of the gate is a 401 with the same challenge. *)
Lemma authMiddleware_refusal (secret : string) (c : request) (r : response) :
  authMiddleware secret c = Some r ->
  status r = 401 /\ headers r = headers (unauthorized EmptyString).
Proof.
  rewrite authMiddleware_spec.
  destruct (presented_token c) as [token|];
    [destruct (String.eqb token secret)|];
    try discriminate; intros [= <-]; split; reflexivity.
Qed.

(** A token of another length and a token of the same length but other
    content are refused with one and the same response. *)
Lemma auth_mismatch_same_response (secret : string) (c1 c2 : request) (t1 t2 : string) :
  presented_token c1 = Some t1 -> presented_token c2 = Some t2 ->
  t1 <> secret -> t2 <> secret ->
  authMiddleware secret c1
    = Some (unauthorized "Unauthorized: Invalid authentication token")
  /\ authMiddleware secret c2 = authMiddleware secret c1.
Proof.
  intros H1 H2 Hn1 Hn2.
  assert (Hone : forall c t, presented_token c = Some t -> t <> secret ->
             authMiddleware secret c
             = Some (unauthorized "Unauthorized: Invalid authentication token")).
  { intros c t Hp Hne. rewrite authMiddleware_spec, Hp.
    apply String.eqb_neq in Hne. rewrite Hne. reflexivity. }
  rewrite (Hone c1 t1 H1 Hn1), (Hone c2 t2 H2 Hn2). split; reflexivity.
Qed.

(** Past the [cors] middleware a request meets the rate limiter first. *)
Lemma fetch_past_cors (DB : D1Database) (secret : string) (router : request -> route)
    (m : gmap string entry) (now : Z) (c : request) :
  method c <> "OPTIONS" ->
  fetch DB secret router m now c =
    match rateLimit m now c with
    | (counts, Some refused) => (counts, reply refused)
    | (counts, None) =>
        (counts,
         match router c with
         | RestRoute =>
             match authMiddleware secret c with
             | Some refused => reply refused
             | None => handleRest DB c
             end
         | QueryRoute =>
             match authMiddleware secret c with
             | Some refused => reply refused
             | None => handleQuery DB c
             end
         | NoRoute => reply not_found
         end)
    end.
Proof.
  intros Hm. unfold fetch. apply String.eqb_neq in Hm. rewrite Hm. reflexivity.
Qed.

(** Behind the gate a request that does not present the secret gets 401. *)
Lemma gate_refuses (DB : D1Database) (secret : string) (router : request -> route)
    (c : request) :
  router c <> NoRoute -> presented_token c <> Some secret ->
  exists r,
    match router c with
    | RestRoute =>
        match authMiddleware secret c with
        | Some refused => reply refused
        | None => handleRest DB c
        end
    | QueryRoute =>
        match authMiddleware secret c with
        | Some refused => reply refused
        | None => handleQuery DB c
        end
    | NoRoute => reply not_found
    end = reply r
    /\ status r = 401.
Proof.
  intros Hr Hp.
  destruct (authMiddleware secret c) as [r|] eqn:Ha.
  - exists r. split; [| exact (proj1 (authMiddleware_refusal _ _ _ Ha))].
    destruct (router c); [reflexivity | reflexivity | contradiction].
  - apply authMiddleware_passes in Ha. contradiction.
Qed.

(** C10, amended. For every request but those of method OPTIONS, which the
    CORS middleware answers before the limiter, the rate limiter runs before
    the auth gate.  A request whose client has used up its budget inside the
    window is answered 429 whatever its [Authorization] header and its
    route, and nothing changes.  Every request below the limit is counted,
    whatever its header and route: the counter of its client goes up by one
    inside the window, and is set to 1 for a client without an entry or
    past its window; and when the request is for a route behind the gate
    and does not present the secret, the answer after the counting is 401. *)
Theorem C10_rate_limit_before_auth (DB : D1Database) (secret : string)
    (router : request -> route) :
  (forall (m : gmap string entry) (now : Z) (c : request) (e : entry),
      method c <> "OPTIONS" ->
      m !! clientIP c = Some e ->
      MAX_REQUESTS <= count e -> now <= resetTime e ->
      fetch DB secret router m now c = (m, reply too_many)
      /\ status too_many = 429)
  /\ (forall (m : gmap string entry) (now : Z) (c : request) (e : entry),
         method c <> "OPTIONS" ->
         m !! clientIP c = Some e ->
         count e < MAX_REQUESTS -> now <= resetTime e ->
         (fetch DB secret router m now c).1
         = <[clientIP c := {| count := count e + 1; resetTime := resetTime e |}]> m
         /\ (router c <> NoRoute ->
             presented_token c <> Some secret ->
             exists r, (fetch DB secret router m now c).2 = reply r /\ status r = 401))
  /\ (forall (m : gmap string entry) (now : Z) (c : request),
         method c <> "OPTIONS" ->
         m !! clientIP c = None
         \/ (exists e, m !! clientIP c = Some e /\ resetTime e < now) ->
         (fetch DB secret router m now c).1
         = <[clientIP c := {| count := 1; resetTime := now + RATE_LIMIT_WINDOW |}]> m
         /\ (router c <> NoRoute ->
             presented_token c <> Some secret ->
             exists r, (fetch DB secret router m now c).2 = reply r /\ status r = 401)).
Proof.
  split; [| split].
  - intros m now c e Hm He Hc Ht. rewrite (fetch_past_cors _ _ _ _ _ _ Hm).
    rewrite (rateLimit_exhausted m now c e He Hc Ht). split; reflexivity.
  - intros m now c e Hm He Hc Ht. rewrite (fetch_past_cors _ _ _ _ _ _ Hm).
    rewrite (rateLimit_below m now c e He Hc Ht). cbn [fst snd].
    split; [reflexivity|]. intros Hr Hp. exact (gate_refuses DB secret router c Hr Hp).
  - intros m now c Hm Hentry. rewrite (fetch_past_cors _ _ _ _ _ _ Hm).
    assert (Hstep : rateLimit m now c
                    = (<[clientIP c := {| count := 1;
                                          resetTime := now + RATE_LIMIT_WINDOW |}]> m,
                       None)).
    { destruct Hentry as [He | (e & He & Ht)];
        [exact (rateLimit_first m now c He) | exact (rateLimit_expired m now c e He Ht)]. }
    rewrite Hstep. cbn [fst snd].
    split; [reflexivity|]. intros Hr Hp. exact (gate_refuses DB secret router c Hr Hp).
Qed.

(** C10 as the specification words it fails for the method OPTIONS: such a
    request from a client that has used up its budget is answered 204, not
    429, and one from a client below the limit is not counted. *)
Lemma C10_preflight_counterexample :
  fetch (accepting 1) "s3cret" (fun _ => RestRoute)
        {["203.0.113.7" := {| count := 100; resetTime := 5000 |}]} 4000
        (preflight_request "203.0.113.7")
    = ({["203.0.113.7" := {| count := 100; resetTime := 5000 |}]}, reply preflight)
  /\ status preflight <> 429
  /\ (fetch (accepting 1) "s3cret" (fun _ => RestRoute)
             {["203.0.113.7" := {| count := 3; resetTime := 5000 |}]} 4000
             (preflight_request "203.0.113.7")).1
     = {["203.0.113.7" := {| count := 3; resetTime := 5000 |}]}.
Proof. split; [reflexivity | split; [discriminate | reflexivity]]. Qed.

(** ** The theorems at concrete requests *)

Lemma C1_witness :
  exists sh : shape,
    "SELECT * FROM `users` WHERE age = ? ORDER BY name DESC" = render sh
    /\ Forall sanitized (identifiers sh)
    /\ 1%nat = placeholders sh
    /\ all_chars template_char
         "SELECT * FROM `users` WHERE age = ? ORDER BY name DESC" = true.
Proof.
  apply (C1_identifiers_sanitized (accepting 1) get_users_example
           {| sql := "SELECT * FROM `users` WHERE age = ? ORDER BY name DESC";
              params := [VStr "25"] |}).
  left. reflexivity.
Defined.

Lemma C2_witness :
  MultiStatementRejected
    (resp (handleQuery (accepting 1)
             (query_request [] (VObj [("query", VStr "drop TABLE Users; select 1")]))))
  /\ status (resp (handleQuery (accepting 1)
                     (query_request [] (VObj [("query", VStr "drop TABLE Users; select 1")]))))
     = 400
  /\ sent (handleQuery (accepting 1)
             (query_request [] (VObj [("query", VStr "drop TABLE Users; select 1")])))
     = [].
Proof.
  apply (C2_drop_then_select_rejected (accepting 1)
           (query_request [] (VObj [("query", VStr "drop TABLE Users; select 1")]))
           [("query", VStr "drop TABLE Users; select 1")]
           "drop TABLE Users; select 1");
    reflexivity.
Defined.

Lemma C6_witness :
  sanitizeIdentifier (VStr "user-name; --") = Ok "username"
  /\ InvalidIdentifier (sanitizeIdentifier (VStr "9lives"))
  /\ InvalidIdentifier (sanitizeIdentifier (VStr "--"))
  /\ InvalidIdentifier (sanitizeIdentifier (VNum 7)).
Proof.
  split; [| split; [| split]].
  - destruct (proj2 (C6_sanitize_fails_iff (VStr "user-name; --")))
      as (s & Hs & H).
    + unfold InvalidIdentifier. intros H. destruct H as [H | H]; discriminate H.
    + injection Hs as <-. exact H.
  - apply (proj1 (C6_sanitize_fails_iff (VStr "9lives"))).
    right. right. exists "9lives". split; [reflexivity | right].
    exists "9"%char, "lives". split; [reflexivity|].
    do 9 right. left. reflexivity.
  - apply (proj1 (C6_sanitize_fails_iff (VStr "--"))).
    right. right. exists "--". split; [reflexivity | left; reflexivity].
  - apply (proj1 (C6_sanitize_fails_iff (VNum 7))). left. intros s [=].
Defined.

Lemma C7_witness :
  exists table cols order,
    sanitizeIdentifier (VStr "us ers") = Ok table
    /\ sanitize_all ["a-ge"; "city"] = Ok cols
    /\ order = Some ("name", true)
    /\ "SELECT * FROM `users` WHERE id = ? AND age = ? AND city = ? ORDER BY name DESC LIMIT ? OFFSET ?"
       = render (SelectFrom table (IdEquals :: map ColumnEquals cols) order true true)
    /\ exists page,
         [VStr "7"; VStr "25"; VStr "Oslo"; VNum 10; VNum 20]
         = [VStr "7"] ++ [VStr "25"; VStr "Oslo"] ++ page
         /\ length page = 2%nat.
Proof.
  destruct (proj1 (proj2 C7_get_filters_and_sort) "us ers" (Some "7")
              [("a-ge", "25"); ("limit", "10"); ("city", "Oslo"); ("sort_by", "name");
               ("order", "DeSc"); ("offset", "20")]
              {| sql := "SELECT * FROM `users` WHERE id = ? AND age = ? AND city = ? ORDER BY name DESC LIMIT ? OFFSET ?";
                 params := [VStr "7"; VStr "25"; VStr "Oslo"; VNum 10; VNum 20] |}
              eq_refl)
    as (table & cols & order & Ht & Hc & Ho & Hsql & page & Hp & Hlen).
  exists table, cols, order. cbn in Ho. destruct Ho as (col & [= <-] & ->).
  repeat split; try assumption. exists page. split; assumption.
Defined.

Lemma C8_witness :
  status (resp (handleRest (accepting 1)
                  (patch_request "/rest/users/5" (VObj [("name", VStr "x"); ("id", VNum 9)]))))
    = 400
  /\ sent (handleRest (accepting 1)
             (patch_request "/rest/users/5" (VObj [("name", VStr "x"); ("id", VNum 9)])))
     = []
  /\ ForbiddenFieldUpdate
       (resp (handleRest (accepting 1)
                (patch_request "/rest/users/5" (VObj [("name", VStr "x"); ("id", VNum 9)])))).
Proof.
  destruct (C8_update_rejects_id (accepting 1)
              (patch_request "/rest/users/5" (VObj [("name", VStr "x"); ("id", VNum 9)]))
              [("name", VStr "x"); ("id", VNum 9)])
    as (Hs & Hn & Hf & _).
  - right. reflexivity.
  - reflexivity.
  - right. left. reflexivity.
  - split; [exact Hs | split; [exact Hn |]].
    exact (Hf "rest" "users" "5" [] "users" eq_refl eq_refl).
Defined.

Lemma C9_witness :
  status (resp (handleRest (accepting 0) (delete_request "/rest/users/42"))) = 404
  /\ resp (handleRest (accepting 3) (delete_request "/rest/users/42"))
     = json (VObj [("message", VStr "Resource deleted successfully");
                   ("meta", VObj [("changes", VNum 3)])]) 200.
Proof.
  split.
  - apply (proj1 (C9_delete_not_found_iff (accepting 0) (delete_request "/rest/users/42")
                    "rest" "users" "42" [] eq_refl eq_refl)).
    exists "users", {| success := true; changes := 0 |}. repeat split.
  - apply (proj2 (proj2 (C9_delete_not_found_iff (accepting 3)
                           (delete_request "/rest/users/42")
                           "rest" "users" "42" [] eq_refl eq_refl))
             "users" {| success := true; changes := 3 |});
      [reflexivity | reflexivity | discriminate].
Defined.

Lemma C5_witness :
  exists verdicts,
    (serve ∅ ((0, alice) :: busy_minute ++ [(60000, alice)])).2
      = None :: verdicts ++ [Some too_many]
    /\ length verdicts = 100%nat.
Proof.
  destruct (proj2 (proj2 (proj2 C5_rate_limiter))
              ∅ "203.0.113.7" 0 alice busy_minute 60000 alice)
    as (verdicts & Hv & Hlen & _).
  - apply lookup_empty.
  - reflexivity.
  - reflexivity.
  - vm_compute. reflexivity.
  - apply from_client_Forall. unfold busy_minute, RATE_LIMIT_WINDOW.
    repeat apply Forall_app_2.
    + apply List.Forall_forall. intros r Hr%repeat_spec. subst r. cbn [fst]. lia.
    + constructor; [cbn [fst]; lia | constructor].
    + apply List.Forall_forall. intros r Hr%repeat_spec. subst r. cbn [fst]. lia.
  - unfold RATE_LIMIT_WINDOW. lia.
  - exists verdicts. split; [exact Hv | rewrite Hlen; reflexivity].
Defined.

Lemma C10_witness :
  fetch (accepting 1) "s3cret" (fun _ => RestRoute)
        {["203.0.113.7" := {| count := 100; resetTime := 5000 |}]} 4000 alice
    = ({["203.0.113.7" := {| count := 100; resetTime := 5000 |}]}, reply too_many)
  /\ (fetch (accepting 1) "s3cret" (fun _ => QueryRoute)
             {["198.51.100.2" := {| count := 3; resetTime := 5000 |}]} 4000 bob).1
     = <["198.51.100.2" := {| count := 4; resetTime := 5000 |}]>
         {["198.51.100.2" := {| count := 3; resetTime := 5000 |}]}
  /\ exists r,
       (fetch (accepting 1) "s3cret" (fun _ => QueryRoute)
              {["198.51.100.2" := {| count := 3; resetTime := 5000 |}]} 4000 bob).2
       = reply r
       /\ status r = 401.
Proof.
  split.
  - apply (proj1 (C10_rate_limit_before_auth (accepting 1) "s3cret" (fun _ => RestRoute))
             {["203.0.113.7" := {| count := 100; resetTime := 5000 |}]} 4000 alice
             {| count := 100; resetTime := 5000 |}).
    + discriminate.
    + apply lookup_singleton_eq.
    + unfold MAX_REQUESTS. cbn. lia.
    + cbn. lia.
  - destruct (proj1 (proj2 (C10_rate_limit_before_auth (accepting 1) "s3cret"
                              (fun _ => QueryRoute)))
                {["198.51.100.2" := {| count := 3; resetTime := 5000 |}]} 4000 bob
                {| count := 3; resetTime := 5000 |}) as [Hcount Hgate].
    + discriminate.
    + apply lookup_singleton_eq.
    + unfold MAX_REQUESTS. cbn. lia.
    + cbn. lia.
    + split; [exact Hcount|]. apply Hgate.
      * discriminate.
      * intros H. vm_compute in H. discriminate H.
Defined.

(** * Further properties of the two source files *)

(** ** sanitizeIdentifier and sanitizeKeyword *)

(** X1. The sanitizer is idempotent: what it returns it accepts unchanged. *)
Theorem sanitize_idempotent (raw : jsval) (s : string) :
  sanitizeIdentifier raw = Ok s -> sanitizeIdentifier (VStr s) = Ok s.
Proof. intros H. apply sanitize_clean. exact (sanitize_ok_clean raw s H). Qed.

Lemma sanitize_idempotent_witness :
  sanitizeIdentifier (VStr "user_name") = Ok "user_name".
Proof.
  apply (sanitize_idempotent (VStr "user_name; --") "user_name"). reflexivity.
Defined.

Lemma word_not_backtick (s : string) :
  all_word s = true -> all_chars (fun c => negb (Ascii.eqb c "`")) s = true.
Proof.
  induction s as [|c s IH]; [reflexivity|].
  cbn [all_word all_chars]. intros [Hc Hs]%andb_prop. rewrite (IH Hs), andb_true_r.
  destruct (Ascii.eqb c "`") eqn:He; [| reflexivity].
  apply Ascii.eqb_eq in He. subst c. discriminate Hc.
Qed.

(** X2. [sanitizeKeyword] throws exactly what [sanitizeIdentifier] throws,
    and otherwise returns the sanitized identifier between two backticks;
    the identifier itself holds no backtick, so the quoting cannot be
    closed from inside. *)
Theorem sanitizeKeyword_quotes (raw : jsval) :
  match sanitizeKeyword raw with
  | Ok q =>
      exists s, sanitizeIdentifier raw = Ok s
                /\ q = "`" +:+ s +:+ "`"
                /\ all_chars (fun c => negb (Ascii.eqb c "`")) s = true
  | Throw msg => sanitizeIdentifier raw = Throw msg
  | Return _ => False
  end.
Proof.
  unfold sanitizeKeyword.
  destruct (sanitizeIdentifier raw) as [s | msg | r] eqn:H; cbn [bind].
  - exists s. repeat split. apply word_not_backtick.
    pose proof (sanitize_ok_clean raw s H) as Hc. unfold clean in Hc.
    apply andb_prop in Hc as [[_ Hw]%andb_prop _]. exact Hw.
  - reflexivity.
  - exact (sanitize_never_returns raw r H).
Qed.

(** ** handleGet *)

Lemma sanitize_all_throw (names : list string) (msg : string) :
  sanitize_all names = Throw msg ->
  exists k, In k names /\ sanitizeIdentifier (VStr k) = Throw msg.
Proof.
  induction names as [|k names IH]; cbn [sanitize_all mapM]; [discriminate|].
  destruct (sanitizeIdentifier (VStr k)) as [col | m | r] eqn:Hk; cbn [bind].
  - fold (sanitize_all names).
    destruct (sanitize_all names) as [cols | m | r]; cbn [bind]; try discriminate.
    intros [= <-]. destruct (IH eq_refl) as (k' & Hin & Hk').
    exists k'. split; [right; exact Hin | exact Hk'].
  - intros [= <-]. exists k. split; [left; reflexivity | exact Hk].
  - discriminate.
Qed.

Lemma sanitize_all_never_returns (names : list string) (r : response) :
  sanitize_all names <> Return r.
Proof.
  induction names as [|k names IH]; cbn [sanitize_all mapM]; [discriminate|].
  destruct (sanitizeIdentifier (VStr k)) as [col | m | r'] eqn:Hk; cbn [bind].
  - fold (sanitize_all names).
    destruct (sanitize_all names) as [cols | m | r']; cbn [bind]; try discriminate.
    exact IH.
  - discriminate.
  - exfalso. exact (sanitize_never_returns _ _ Hk).
Qed.

Lemma sanitize_all_ok_in (names cols : list string) (k : string) :
  sanitize_all names = Ok cols -> In k names ->
  exists col, sanitizeIdentifier (VStr k) = Ok col.
Proof.
  revert cols. induction names as [|k' names IH]; intros cols; [intros _ []|].
  cbn [sanitize_all mapM].
  destruct (sanitizeIdentifier (VStr k')) as [col | m | r] eqn:Hk; cbn [bind];
    try discriminate.
  fold (sanitize_all names).
  destruct (sanitize_all names) as [cols' | m | r]; cbn [bind]; try discriminate.
  intros _ [<- | Hin]; [exists col; exact Hk | exact (IH cols' eq_refl Hin)].
Qed.

Lemma filter_entries_keys (sp : list (string * string)) (k : string) :
  In k (map fst (filter_entries sp)) <->
  exists v, In (k, v) sp /\ reserved k = false.
Proof.
  unfold filter_entries. rewrite in_map_iff. split.
  - intros ([k' v] & <- & Hin). apply filter_In in Hin as [Hin Hr].
    exists v. split; [exact Hin | apply negb_true_iff; exact Hr].
  - intros (v & Hin & Hr). exists (k, v). split; [reflexivity|].
    apply filter_In. split; [exact Hin | apply negb_true_iff; exact Hr].
Qed.

(** The builder of the read either arrives at a statement or throws one of
    the sanitizer's two errors. *)
Lemma getStatement_cases (tableName : string) (id : option string)
    (sp : list (string * string)) :
  (exists st, getStatement tableName id sp = Ok st
              /\ ~ refused tableName
              /\ (forall k v, In (k, v) sp -> reserved k = false -> ~ refused k)
              /\ (forall sb, sp_get sp "sort_by" = Some sb -> nonempty sb = true ->
                             ~ refused sb))
  \/ (exists msg, getStatement tableName id sp = Throw msg
                  /\ InvalidIdentifier (Throw msg : comp string)
                  /\ (refused tableName
                      \/ (exists k v, In (k, v) sp /\ reserved k = false /\ refused k)
                      \/ (exists sb, sp_get sp "sort_by" = Some sb
                                     /\ nonempty sb = true /\ refused sb))).
Proof.
  assert (Hthrow : forall name msg, sanitizeIdentifier (VStr name) = Throw msg ->
             InvalidIdentifier (Throw msg : comp string) /\ refused name).
  { intros name msg H. split.
    - pose proof (sanitize_throw_invalid _ _ H) as Hi. rewrite H in Hi.
      destruct Hi as [Hi | Hi]; [left | right]; congruence.
    - intros s Hs. congruence. }
  assert (Hok : forall name s, sanitizeIdentifier (VStr name) = Ok s -> ~ refused name).
  { intros name s H Hr. exact (Hr s H). }
  unfold getStatement, sanitizeKeyword.
  destruct (sanitizeIdentifier (VStr tableName)) as [table | msg | r] eqn:Ht;
    cbn [bind].
  2: { right. exists msg. destruct (Hthrow _ _ Ht) as [Hi Hr].
       split; [reflexivity | split; [exact Hi | left; exact Hr]]. }
  2: { exfalso. exact (sanitize_never_returns _ _ Ht). }
  rewrite filters_spec.
  destruct (sanitize_all (map fst (filter_entries sp))) as [cols | msg | r] eqn:Hc;
    cbn [bind].
  2: { right. exists msg. destruct (sanitize_all_throw _ _ Hc) as (k & Hin & Hk).
       apply filter_entries_keys in Hin as (v & Hin & Hr).
       destruct (Hthrow _ _ Hk) as [Hi Href].
       split; [reflexivity | split; [exact Hi |]].
       right. left. exists k, v. repeat split; assumption. }
  2: { exfalso. exact (sanitize_all_never_returns _ _ Hc). }
  assert (Hkeys : forall k v, In (k, v) sp -> reserved k = false -> ~ refused k).
  { intros k v Hin Hr.
    destruct (sanitize_all_ok_in _ _ k Hc) as [col Hcol].
    - apply filter_entries_keys. exists v. split; assumption.
    - exact (Hok _ _ Hcol). }
  destruct (sp_get sp "sort_by") as [sb|] eqn:Hsb;
    [destruct (nonempty sb) eqn:Hnsb;
       [destruct (sanitizeIdentifier (VStr sb)) as [col | msg | r] eqn:Hcol |] |];
    cbn [bind].
  - left. eexists. split; [reflexivity|]. split; [exact (Hok _ _ Ht)|].
    split; [exact Hkeys|]. intros sb' [= <-] _. exact (Hok _ _ Hcol).
  - right. exists msg. destruct (Hthrow _ _ Hcol) as [Hi Href].
    split; [reflexivity | split; [exact Hi |]].
    right. right. exists sb. repeat split; assumption.
  - exfalso. exact (sanitize_never_returns _ _ Hcol).
  - left. eexists. split; [reflexivity|]. split; [exact (Hok _ _ Ht)|].
    split; [exact Hkeys|]. intros sb' [= <-] Hn. congruence.
  - left. eexists. split; [reflexivity|]. split; [exact (Hok _ _ Ht)|].
    split; [exact Hkeys|]. intros sb' [=].
Qed.

(** X3. A read reaches the collaborator unless the table name, the key of a
    filter entry or a non-empty [sort_by] value is refused by the
    sanitizer; in that case nothing is sent and the answer is 400 with the
    sanitizer's message as details. *)
Theorem handleGet_refuses_iff (DB : D1Database) (tableName : string)
    (id : option string) (sp : list (string * string)) :
  (sent (handleGet DB tableName id sp) = [] <->
     refused tableName
     \/ (exists k v, In (k, v) sp /\ reserved k = false /\ refused k)
     \/ (exists sb, sp_get sp "sort_by" = Some sb /\ nonempty sb = true /\ refused sb))
  /\ (sent (handleGet DB tableName id sp) = [] ->
      exists msg, resp (handleGet DB tableName id sp)
                  = failure "Failed to fetch records" msg
                  /\ InvalidIdentifier (Throw msg : comp string)).
Proof.
  unfold handleGet.
  destruct (getStatement_cases tableName id sp)
    as [(st & -> & Ht & Hk & Hs) | (msg & -> & Hi & Hwhy)]; cbn [sent resp].
  - split; [split|]; try discriminate.
    intros [Hr | [(k & v & Hin & Hres & Hr) | (sb & Hsb & Hn & Hr)]].
    + contradiction.
    + exfalso. exact (Hk k v Hin Hres Hr).
    + exfalso. exact (Hs sb Hsb Hn Hr).
  - split; [split; [intros _; exact Hwhy | reflexivity]|].
    intros _. exists msg. split; [reflexivity | exact Hi].
Qed.

(** X4. [offset] without [limit] is ignored: when the query string has no
    non-empty [limit], the statement has neither LIMIT nor OFFSET and binds
    nothing but the id and the filter values, whatever [offset] says. *)
Theorem offset_needs_limit (tableName : string) (id : option string)
    (sp : list (string * string)) (st : statement) :
  opt_truthy (sp_get sp "limit") = false ->
  getStatement tableName id sp = Ok st ->
  exists table cols order,
    sql st = render (SelectFrom table
                       ((if opt_truthy id then [IdEquals] else [])
                        ++ map ColumnEquals cols) order false false)
    /\ params st = (match id with
                    | Some i => if nonempty i then [VStr i] else []
                    | None => []
                    end)
                   ++ map (fun e => VStr e.2) (filter_entries sp).
Proof.
  intros Hl H.
  destruct (getStatement_shape _ _ _ _ H)
    as (table & cols & order & _ & _ & _ & Hsql & Hp & _).
  exists table, cols, order.
  unfold has_offset, has_limit in Hsql. rewrite Hl in Hsql. cbn [andb] in Hsql.
  split; [exact Hsql|].
  rewrite Hp. unfold page_params.
  destruct (sp_get sp "limit") as [l|]; cbn [opt_truthy] in Hl;
    [rewrite Hl|]; rewrite app_nil_r; reflexivity.
Qed.

Lemma offset_needs_limit_witness :
  exists table cols order,
    "SELECT * FROM `users` WHERE age = ?"
    = render (SelectFrom table ([] ++ map ColumnEquals cols) order false false)
    /\ [VStr "25"] = [] ++ map (fun e => VStr e.2) (filter_entries [("age", "25"); ("offset", "20")]).
Proof.
  apply (offset_needs_limit "users" None [("age", "25"); ("offset", "20")]
           {| sql := "SELECT * FROM `users` WHERE age = ?"; params := [VStr "25"] |});
    reflexivity.
Defined.

Lemma same_keys_filtered (sp1 sp2 : list (string * string)) :
  same_but_filter_values sp1 sp2 ->
  map fst (filter_entries sp1) = map fst (filter_entries sp2).
Proof.
  unfold same_but_filter_values.
  induction 1 as [|[k1 v1] [k2 v2] sp1 sp2 [Hk _] _ IH]; [reflexivity|].
  cbn [fst] in Hk. subst k2. unfold filter_entries in *. cbn [List.filter fst].
  destruct (reserved k1); cbn [negb map fst]; [exact IH | f_equal; exact IH].
Qed.

Lemma same_directive (sp1 sp2 : list (string * string)) (d : string) :
  same_but_filter_values sp1 sp2 -> reserved d = true ->
  sp_get sp1 d = sp_get sp2 d.
Proof.
  unfold same_but_filter_values. intros H Hd.
  induction H as [|[k1 v1] [k2 v2] sp1 sp2 [Hk Hv] _ IH]; [reflexivity|].
  cbn [fst snd] in Hk, Hv. subst k2. cbn [sp_get].
  destruct (String.eqb k1 d) eqn:He; [| exact IH].
  apply String.eqb_eq in He. subst k1. rewrite (Hv Hd). reflexivity.
Qed.

(** X5. The text of a read does not depend on the values it filters by nor
    on the id itself: two requests for the same table whose query strings
    have the same keys and the same directive values, and which both carry
    an id or both carry none, build the same text (or fail alike). *)
Theorem get_text_ignores_values (tableName : string) (id1 id2 : option string)
    (sp1 sp2 : list (string * string)) :
  same_but_filter_values sp1 sp2 ->
  opt_truthy id1 = opt_truthy id2 ->
  text_of (getStatement tableName id1 sp1) = text_of (getStatement tableName id2 sp2).
Proof.
  intros Hsp Hid. unfold text_of, getStatement, sanitizeKeyword.
  destruct (sanitizeIdentifier (VStr tableName)) as [table | msg | r];
    cbn [bind]; try reflexivity.
  rewrite !filters_spec, <- (same_keys_filtered _ _ Hsp).
  rewrite <- (same_directive _ _ "sort_by" Hsp eq_refl),
          <- (same_directive _ _ "order" Hsp eq_refl),
          <- (same_directive _ _ "limit" Hsp eq_refl),
          <- (same_directive _ _ "offset" Hsp eq_refl).
  destruct (sanitize_all (map fst (filter_entries sp1))) as [cols | msg | r];
    cbn [bind fst snd]; try reflexivity.
  assert (Hstart : forall id : option string,
             (match id with
              | Some i => if nonempty i then (["id = ?"], [VStr i]) else ([], [])
              | None => ([], [])
              end).1 = if opt_truthy id then ["id = ?"] else []).
  { intros [i|]; [cbn [opt_truthy]; destruct (nonempty i)|]; reflexivity. }
  rewrite !Hstart, Hid.
  destruct (sp_get sp1 "sort_by") as [sb|];
    [destruct (nonempty sb);
       [destruct (sanitizeIdentifier (VStr sb)) as [col | msg | r] |] |];
    cbn [bind]; try reflexivity;
    (destruct (sp_get sp1 "limit") as [l|];
       [destruct (nonempty l);
          [destruct (sp_get sp1 "offset") as [o|]; [destruct (nonempty o) |] |] |]);
    reflexivity.
Qed.

Lemma get_text_ignores_values_witness :
  text_of (getStatement "users" (Some "7") [("age", "25"); ("limit", "10")])
  = text_of (getStatement "users" (Some "8' OR 1=1")
               [("age", "0 OR 1=1; --"); ("limit", "10")]).
Proof.
  apply (get_text_ignores_values "users" (Some "7") (Some "8' OR 1=1")
           [("age", "25"); ("limit", "10")]
           [("age", "0 OR 1=1; --"); ("limit", "10")]).
  - repeat constructor. discriminate.
  - reflexivity.
Defined.

(** ** handlePost and handleUpdate *)

Lemma has_by_keys (o : list (string * jsval)) (k : string) :
  has o k = (existsb (fun k' => String.eqb k' k) (keys o) || inherited k)%bool.
Proof.
  unfold has. induction o as [|[k' v] o IH]; [reflexivity|].
  cbn [own keys map fst existsb].
  destruct (String.eqb k' k); [reflexivity | exact IH].
Qed.

(** X6. The text of an insert, an update or a delete is fixed by the table
    name and the keys of the body: bodies with the same keys in the same
    order build the same text (or are refused alike), whatever their values
    and whatever the id. *)
Theorem write_text_ignores_values (tableName id1 id2 : string)
    (o1 o2 : list (string * jsval)) :
  keys o1 = keys o2 ->
  text_of_write (postStatement tableName (Fulfilled (VObj o1)))
    = text_of_write (postStatement tableName (Fulfilled (VObj o2)))
  /\ text_of_write (updateStatement tableName id1 (Fulfilled (VObj o1)))
     = text_of_write (updateStatement tableName id2 (Fulfilled (VObj o2)))
  /\ text_of (deleteStatement tableName id1) = text_of (deleteStatement tableName id2).
Proof.
  intros Hk.
  assert (Hid : has o1 "id" = has o2 "id") by (rewrite !has_by_keys, Hk; reflexivity).
  unfold text_of_write, text_of, postStatement, updateStatement, deleteStatement,
    sanitizeKeyword.
  destruct (sanitizeIdentifier (VStr tableName)) as [table | msg | r];
    cbn [bind await]; [| repeat split | repeat split].
  rewrite !not_an_object_obj. cbn [props]. rewrite <- Hk, <- Hid.
  destruct (Nat.eqb (length (keys o1)) 0); [repeat split|].
  destruct (mapM (fun k => sanitizeIdentifier (VStr k)) (keys o1)) as [cols | msg | r];
    cbn [bind]; destruct (has o1 "id"); cbn [bind]; repeat split.
Qed.

Lemma write_text_ignores_values_witness :
  text_of_write (updateStatement "users" "5" (Fulfilled (VObj [("name", VStr "a")])))
  = text_of_write (updateStatement "users" "6"
                     (Fulfilled (VObj [("name", VStr "x'; DROP TABLE users; --")]))).
Proof.
  apply (write_text_ignores_values "users" "5" "6" [("name", VStr "a")]
           [("name", VStr "x'; DROP TABLE users; --")]).
  reflexivity.
Defined.

Lemma handlePost_clean_keys_witness :
  sent (handlePost (accepting 1) "users"
          (Fulfilled (VObj [("name", VStr "John"); ("age", VNum 30)])))
    = [ {| sql := render (InsertInto "users" ["name"; "age"]);
           params := [VStr "John"; VNum 30] |} ]
  /\ status (resp (handlePost (accepting 1) "users"
                     (Fulfilled (VObj [("name", VStr "John"); ("age", VNum 30)]))))
     = 201.
Proof.
  apply (handlePost_clean_keys (accepting 1) "users" "users"
           [("name", VStr "John"); ("age", VNum 30)]
           {| success := true; changes := 1 |}).
  - reflexivity.
  - discriminate.
  - constructor; [intros [H | []]; discriminate H|].
    constructor; [intros [] | constructor].
  - reflexivity.
  - reflexivity.
Defined.

Lemma not_an_object_other (data : jsval) :
  (forall o, data <> VObj o) -> not_an_object data = true.
Proof.
  intros H. destruct data; try reflexivity.
  - unfold not_an_object. cbn. destruct b; reflexivity.
  - unfold not_an_object. cbn. destruct (Z.eqb z 0); reflexivity.
  - unfold not_an_object. cbn. destruct (nonempty s); reflexivity.
  - exfalso. eapply H. reflexivity.
Qed.

(** X8. A create or an update whose body cannot be parsed, is not an
    object, is an array or [null], or is the empty object, is answered 400
    and nothing is sent to the collaborator. *)
Theorem invalid_payload_not_sent (DB : D1Database) (tableName id : string)
    (body : settled jsval) :
  (forall o, body = Fulfilled (VObj o) -> o = []) ->
  (sent (handlePost DB tableName body) = []
   /\ status (resp (handlePost DB tableName body)) = 400)
  /\ (sent (handleUpdate DB tableName id body) = []
      /\ status (resp (handleUpdate DB tableName id body)) = 400).
Proof.
  intros Hbody.
  unfold handlePost, handleUpdate, postStatement, updateStatement, sanitizeKeyword.
  destruct (sanitizeIdentifier (VStr tableName)) as [table | msg | r] eqn:Ht;
    cbn [bind].
  - destruct body as [data | msg]; cbn [await bind]; [| repeat split].
    destruct (not_an_object data) eqn:Hobj; [repeat split|].
    destruct (not_an_object_false data Hobj) as [o ->].
    rewrite (Hbody o eq_refl). repeat split.
  - repeat split.
  - exfalso. exact (sanitize_never_returns _ _ Ht).
Qed.

Lemma invalid_payload_not_sent_witness :
  (sent (handlePost (accepting 1) "users" (Fulfilled (VArr [VNum 1]))) = []
   /\ status (resp (handlePost (accepting 1) "users" (Fulfilled (VArr [VNum 1])))) = 400)
  /\ (sent (handleUpdate (accepting 1) "users" "5" (Fulfilled (VArr [VNum 1]))) = []
      /\ status (resp (handleUpdate (accepting 1) "users" "5" (Fulfilled (VArr [VNum 1]))))
         = 400).
Proof.
  apply (invalid_payload_not_sent (accepting 1) "users" "5" (Fulfilled (VArr [VNum 1]))).
  intros o H. discriminate H.
Defined.

(** X9. An update whose body has no [id] key binds the values of the body
    in key order followed by the id of the path, under the sanitized keys,
    also where sanitizing changed a key; and it answers 200 with the count
    of changed rows whatever that count is, zero included. *)
Theorem handleUpdate_binds_values (DB : D1Database) (tableName id table : string)
    (o : list (string * jsval)) (cols : list string) :
  sanitizeIdentifier (VStr tableName) = Ok table ->
  o <> [] -> has o "id" = false ->
  sanitize_all (keys o) = Ok cols ->
  sent (handleUpdate DB tableName id (Fulfilled (VObj o)))
    = [ {| sql := render (UpdateSet table cols); params := values o ++ [VStr id] |} ]
  /\ (forall result,
        run DB (render (UpdateSet table cols)) (values o ++ [VStr id]) = Fulfilled result ->
        resp (handleUpdate DB tableName id (Fulfilled (VObj o)))
        = json (VObj [("message", VStr "Resource updated successfully");
                      ("data", VObj o);
                      ("meta", VObj [("success", VBool (success result));
                                     ("changes", VNum (changes result))])]) 200).
Proof.
  intros Ht Hne Hid Hc.
  unfold handleUpdate, updateStatement, sanitizeKeyword.
  rewrite Ht. cbn [bind await]. rewrite not_an_object_obj. cbn [props].
  assert (Hlen : Nat.eqb (length (keys o)) 0 = false)
    by (destruct o; [congruence | reflexivity]).
  rewrite Hlen, Hid. fold (sanitize_all (keys o)). rewrite Hc. cbn [bind].
  match goal with
  | |- context [run DB ?q _] => change q with (render (UpdateSet table cols))
  end.
  cbn [sql params sent resp]. split; [reflexivity|].
  intros result Hrun. rewrite Hrun. reflexivity.
Qed.

Lemma handleUpdate_binds_values_witness :
  sent (handleUpdate (accepting 0) "users" "5" (Fulfilled (VObj [("na-me", VStr "John")])))
    = [ {| sql := render (UpdateSet "users" ["name"]);
           params := [VStr "John"; VStr "5"] |} ]
  /\ status (resp (handleUpdate (accepting 0) "users" "5"
                     (Fulfilled (VObj [("na-me", VStr "John")])))) = 200.
Proof.
  destruct (handleUpdate_binds_values (accepting 0) "users" "5" "users"
              [("na-me", VStr "John")] ["name"]) as [Hs Hr].
  - reflexivity.
  - discriminate.
  - reflexivity.
  - reflexivity.
  - split; [exact Hs|].
    rewrite (Hr {| success := true; changes := 0 |} eq_refl). reflexivity.
Defined.

(** ** handleRest *)

Lemma handleGet_status (DB : D1Database) (tableName : string) (id : option string)
    (sp : list (string * string)) :
  In (status (resp (handleGet DB tableName id sp))) [200; 400]
  /\ (length (sent (handleGet DB tableName id sp)) <= 1)%nat
  /\ (sent (handleGet DB tableName id sp) = [] ->
      status (resp (handleGet DB tableName id sp)) = 400).
Proof.
  unfold handleGet.
  destruct (getStatement_cases tableName id sp)
    as [(st & -> & _) | (msg & -> & _)]; cbn [sent resp length].
  - destruct (all DB (sql st) (params st)); cbn; repeat split; auto; discriminate.
  - cbn. repeat split; auto.
Qed.

Lemma handlePost_status (DB : D1Database) (tableName : string) (body : settled jsval) :
  In (status (resp (handlePost DB tableName body))) [201; 400]
  /\ (length (sent (handlePost DB tableName body)) <= 1)%nat
  /\ (sent (handlePost DB tableName body) = [] ->
      status (resp (handlePost DB tableName body)) = 400).
Proof.
  unfold handlePost, postStatement, sanitizeKeyword.
  destruct (sanitizeIdentifier (VStr tableName)) as [table | msg | r] eqn:Ht;
    cbn [bind]; [| cbn; repeat split; auto | exfalso; exact (sanitize_never_returns _ _ Ht)].
  destruct body as [data | msg]; cbn [await bind]; [| cbn; repeat split; auto].
  destruct (not_an_object data); [cbn; repeat split; auto|].
  destruct (Nat.eqb (length (keys (props data))) 0); [cbn; repeat split; auto|].
  fold (sanitize_all (keys (props data))).
  destruct (sanitize_all (keys (props data))) as [cols | msg | r] eqn:Hc; cbn [bind];
    [| cbn; repeat split; auto | exfalso; exact (sanitize_all_never_returns _ _ Hc)].
  cbn [sql params sent resp length].
  match goal with |- context [run DB ?q ?ps] => destruct (run DB q ps) end;
    cbn; repeat split; auto; discriminate.
Qed.

Lemma handleUpdate_status (DB : D1Database) (tableName id : string)
    (body : settled jsval) :
  In (status (resp (handleUpdate DB tableName id body))) [200; 400]
  /\ (length (sent (handleUpdate DB tableName id body)) <= 1)%nat
  /\ (sent (handleUpdate DB tableName id body) = [] ->
      status (resp (handleUpdate DB tableName id body)) = 400).
Proof.
  unfold handleUpdate, updateStatement, sanitizeKeyword.
  destruct (sanitizeIdentifier (VStr tableName)) as [table | msg | r] eqn:Ht;
    cbn [bind]; [| cbn; repeat split; auto | exfalso; exact (sanitize_never_returns _ _ Ht)].
  destruct body as [data | msg]; cbn [await bind]; [| cbn; repeat split; auto].
  destruct (not_an_object data); [cbn; repeat split; auto|].
  destruct (Nat.eqb (length (keys (props data))) 0); [cbn; repeat split; auto|].
  destruct (has (props data) "id"); [cbn; repeat split; auto|].
  fold (sanitize_all (keys (props data))).
  destruct (sanitize_all (keys (props data))) as [cols | msg | r] eqn:Hc; cbn [bind];
    [| cbn; repeat split; auto | exfalso; exact (sanitize_all_never_returns _ _ Hc)].
  cbn [sql params sent resp length].
  match goal with |- context [run DB ?q ?ps] => destruct (run DB q ps) end;
    cbn; repeat split; auto; discriminate.
Qed.

Lemma handleDelete_status (DB : D1Database) (tableName id : string) :
  In (status (resp (handleDelete DB tableName id))) [200; 400; 404]
  /\ (length (sent (handleDelete DB tableName id)) <= 1)%nat
  /\ (sent (handleDelete DB tableName id) = [] ->
      status (resp (handleDelete DB tableName id)) = 400).
Proof.
  unfold handleDelete, deleteStatement, sanitizeKeyword.
  destruct (sanitizeIdentifier (VStr tableName)) as [table | msg | r] eqn:Ht;
    cbn [bind]; [| cbn; repeat split; auto | exfalso; exact (sanitize_never_returns _ _ Ht)].
  cbn [sql params sent resp length].
  match goal with |- context [run DB ?q ?ps] => destruct (run DB q ps) as [result|] end;
    [destruct (Z.eqb (changes result) 0)|]; cbn; repeat split; auto 6; discriminate.
Qed.

(** X10. The CRUD path answers with one of 200, 201, 400, 404, 405, never
    with a 5xx; it sends at most one statement per request; and when it
    sends none the answer is 400 or 405, so that 200, 201 and 404 are only
    ever reported after the collaborator was asked. *)
Theorem handleRest_statuses (DB : D1Database) (c : request) :
  In (status (resp (handleRest DB c))) [200; 201; 400; 404; 405]
  /\ (length (sent (handleRest DB c)) <= 1)%nat
  /\ (sent (handleRest DB c) = [] ->
      status (resp (handleRest DB c)) = 400 \/ status (resp (handleRest DB c)) = 405).
Proof.
  unfold handleRest.
  destruct (pathParts c) as [|p0 [|tableName rest]];
    [cbn; repeat split; auto 6 .. |].
  destruct (String.eqb (method c) "GET").
  { destruct (handleGet_status DB tableName (head rest) (searchParams c)) as (Hs & Hl & He).
    repeat split; [| exact Hl | intros H; left; exact (He H)].
    cbn in Hs |- *. intuition. }
  destruct (String.eqb (method c) "POST").
  { destruct (handlePost_status DB tableName (req_json c)) as (Hs & Hl & He).
    repeat split; [| exact Hl | intros H; left; exact (He H)].
    cbn in Hs |- *. intuition. }
  destruct (String.eqb (method c) "PUT" || String.eqb (method c) "PATCH")%bool.
  { destruct (head rest) as [i|]; [| cbn; repeat split; auto 6].
    destruct (handleUpdate_status DB tableName i (req_json c)) as (Hs & Hl & He).
    repeat split; [| exact Hl | intros H; left; exact (He H)].
    cbn in Hs |- *. intuition. }
  destruct (String.eqb (method c) "DELETE"); [| cbn; repeat split; auto 8].
  destruct (head rest) as [i|]; [| cbn; repeat split; auto 6].
  destruct (handleDelete_status DB tableName i) as (Hs & Hl & He).
  repeat split; [| exact Hl | intros H; left; exact (He H)].
  cbn in Hs |- *. intuition.
Qed.

Lemma split_not_nil (sep : ascii) (s : string) : split sep s <> [].
Proof.
  induction s as [|c s IH]; cbn [split]; [discriminate|].
  destruct (Ascii.eqb c sep); [discriminate|].
  destruct (split sep s); [congruence | discriminate].
Qed.

Lemma split_app (sep : ascii) (a b : string) :
  split sep (a +:+ String sep b) = split sep a ++ split sep b.
Proof.
  induction a as [|c a IH].
  - change (EmptyString +:+ String sep b) with (String sep b).
    cbn [split]. rewrite Ascii.eqb_refl. reflexivity.
  - change (String c a +:+ String sep b) with (String c (a +:+ String sep b)).
    cbn [split]. rewrite IH.
    destruct (Ascii.eqb c sep); [reflexivity|].
    pose proof (split_not_nil sep a) as Hn.
    destruct (split sep a) as [|w ws]; [congruence | reflexivity].
Qed.

Lemma split_no_separator (sep : ascii) (s : string) :
  Forall (fun part => includes sep part = false) (split sep s).
Proof.
  induction s as [|c s IH]; cbn [split]; [repeat constructor|].
  destruct (Ascii.eqb c sep) eqn:He; [constructor; [reflexivity | exact IH]|].
  destruct (split sep s) as [|w ws]; [repeat constructor; cbn; rewrite He; reflexivity|].
  apply Forall_cons in IH as [Hw Hws]. constructor; [| exact Hws].
  cbn [includes]. rewrite He, Hw. reflexivity.
Qed.

(** X11. The path segments that [handleRest] works with are never empty and
    hold no slash, and slashes only separate: the segments of [a/b] are
    those of [a] followed by those of [b], so leading, trailing and doubled
    slashes change nothing. *)
Theorem pathParts_segments :
  (forall c : request,
      Forall (fun part => nonempty part = true /\ includes "/" part = false) (pathParts c))
  /\ (forall c ca cb : request,
         pathname c = pathname ca +:+ String "/" (pathname cb) ->
         pathParts c = pathParts ca ++ pathParts cb).
Proof.
  split.
  - intros c. unfold pathParts. apply List.Forall_forall. intros part Hin.
    apply filter_In in Hin as [Hin Hne]. split; [exact Hne|].
    pose proof (split_no_separator "/" (pathname c)) as Hall.
    rewrite List.Forall_forall in Hall. exact (Hall part Hin).
  - intros c ca cb Hp. unfold pathParts. rewrite Hp, split_app. apply List.filter_app.
Qed.

Lemma pathParts_segments_witness :
  pathParts (delete_request "/rest//users/42/")
  = pathParts (delete_request "/rest/") ++ pathParts (delete_request "users/42/").
Proof.
  apply (proj2 pathParts_segments (delete_request "/rest//users/42/")
           (delete_request "/rest/") (delete_request "users/42/")).
  reflexivity.
Defined.

(** ** The rate limiting middleware *)

Lemma rateLimit_step_budget (m : gmap string entry) (now : Z) (c : request) :
  within_budget m -> within_budget (rateLimit m now c).1.
Proof.
  unfold within_budget, rateLimit, MAX_REQUESTS. intros Hm ip e.
  destruct (m !! clientIP c) as [d|] eqn:Hd.
  - destruct (Z.ltb (resetTime d) now); cbn [fst].
    + rewrite lookup_insert. case_decide; [intros [= <-]; cbn; lia | apply Hm].
    + destruct (Z.leb_spec 100 (count d)); cbn [fst]; [apply Hm|].
      rewrite lookup_insert. case_decide; [| apply Hm].
      intros [= <-]. cbn. pose proof (Hm _ _ Hd). lia.
  - cbn [fst]. rewrite lookup_insert. case_decide; [intros [= <-]; cbn; lia | apply Hm].
Qed.

(** X12. The limiter keeps every counter between 1 and 100: from a state
    where that holds, it holds after any sequence of requests. *)
Theorem serve_within_budget (m : gmap string entry) (trace : list (Z * request)) :
  within_budget m -> within_budget (serve m trace).1.
Proof.
  revert m. induction trace as [|[now c] trace IH]; intros m Hm; [exact Hm|].
  cbn [serve fst]. apply IH, rateLimit_step_budget, Hm.
Qed.

Lemma serve_within_budget_witness :
  within_budget (serve ∅ ((0, alice) :: busy_minute ++ [(60000, alice)])).1.
Proof.
  apply (serve_within_budget ∅ ((0, alice) :: busy_minute ++ [(60000, alice)])).
  intros ip e H. rewrite lookup_empty in H. discriminate H.
Defined.

Lemma rateLimit_keeps (m : gmap string entry) (now : Z) (c : request) (ip : string) :
  is_Some (m !! ip) -> is_Some ((rateLimit m now c).1 !! ip).
Proof.
  intros H. destruct (decide (clientIP c = ip)) as [<- | Hne].
  - unfold rateLimit. destruct (m !! clientIP c) as [d|] eqn:Hd; cbn [fst].
    + destruct (Z.ltb (resetTime d) now); cbn [fst];
        [rewrite lookup_insert_eq; eauto|].
      destruct (Z.leb MAX_REQUESTS (count d)); cbn [fst];
        [rewrite Hd; eauto | rewrite lookup_insert_eq; eauto].
    + rewrite lookup_insert_eq. eauto.
  - rewrite rateLimit_other by exact Hne. exact H.
Qed.

Lemma rateLimit_records (m : gmap string entry) (now : Z) (c : request) :
  is_Some ((rateLimit m now c).1 !! clientIP c).
Proof.
  unfold rateLimit. destruct (m !! clientIP c) as [d|] eqn:Hd; cbn [fst].
  - destruct (Z.ltb (resetTime d) now); cbn [fst];
      [rewrite lookup_insert_eq; eauto|].
    destruct (Z.leb MAX_REQUESTS (count d)); cbn [fst];
      [rewrite Hd; eauto | rewrite lookup_insert_eq; eauto].
  - rewrite lookup_insert_eq. eauto.
Qed.

Lemma serve_keeps (trace : list (Z * request)) :
  forall (m : gmap string entry) (ip : string),
    is_Some (m !! ip) -> is_Some ((serve m trace).1 !! ip).
Proof.
  induction trace as [|[now c] trace IH]; intros m ip H; [exact H|].
  cbn [serve fst]. apply IH, rateLimit_keeps, H.
Qed.

(** X13. The map of counters only grows: a sequence of requests leaves the
    entry of a client that sent none of them untouched, never removes an
    entry, and leaves an entry for every client that sent one. *)
Theorem counters_persist (m : gmap string entry) (trace : list (Z * request)) :
  (forall ip, from_client ip trace = [] -> (serve m trace).1 !! ip = m !! ip)
  /\ (forall ip, is_Some (m !! ip) -> is_Some ((serve m trace).1 !! ip))
  /\ (forall now c, In (now, c) trace -> is_Some ((serve m trace).1 !! clientIP c)).
Proof.
  split; [| split].
  - revert m. induction trace as [|[now c] trace IH]; intros m ip Hnone; [reflexivity|].
    cbn [serve fst]. unfold from_client in Hnone. cbn [List.filter snd] in Hnone.
    destruct (String.eqb (clientIP c) ip) eqn:He; [discriminate Hnone|].
    apply String.eqb_neq in He.
    rewrite (IH _ ip Hnone). apply rateLimit_other. exact He.
  - intros ip. apply serve_keeps.
  - revert m. induction trace as [|[now' c'] trace IH]; intros m now c; [intros []|].
    cbn [serve fst]. intros [[= <- <-] | Hin].
    + apply serve_keeps, rateLimit_records.
    + exact (IH _ now c Hin).
Qed.

(** X14. Once the window of a client has passed, the client has its whole
    budget again, whatever its counter was: the request that finds the
    window expired and up to 99 more of that client inside the new window
    are all let through.  With 100 requests at the end of one window this
    lets 200 requests pass within little more than an instant. *)
Theorem budget_after_expiry (m : gmap string entry) (ip : string) (e : entry)
    (now : Z) (c : request) (rest : list (Z * request)) :
  m !! ip = Some e ->
  resetTime e < now ->
  clientIP c = ip ->
  (length (from_client ip rest) <= 99)%nat ->
  Forall (fun r => r.1 <= now + RATE_LIMIT_WINDOW) (from_client ip rest) ->
  Forall (fun rv => clientIP rv.1.2 = ip -> rv.2 = None)
         (combine ((now, c) :: rest) (serve m ((now, c) :: rest)).2).
Proof.
  intros He Ht Hc Hn Hw. cbn [serve fst snd combine]. rewrite <- Hc in He.
  rewrite (rateLimit_expired m now c e He Ht). cbn [fst snd]. rewrite Hc.
  constructor; [intros _; reflexivity|].
  destruct (serve_within_window ip (now + RATE_LIMIT_WINDOW) rest
              (<[ip := {| count := 1; resetTime := now + RATE_LIMIT_WINDOW |}]> m) 1)
    as (_ & _ & Hv).
  - apply lookup_insert_eq.
  - unfold MAX_REQUESTS. lia.
  - exact Hw.
  - exact Hv.
Qed.

Lemma budget_after_expiry_witness :
  Forall (fun rv => clientIP rv.1.2 = "203.0.113.7" -> rv.2 = None)
         (combine ((60001, alice) :: repeat (60002, alice) 99)
                  (serve {["203.0.113.7" := {| count := 100; resetTime := 60000 |}]}
                         ((60001, alice) :: repeat (60002, alice) 99)).2).
Proof.
  apply (budget_after_expiry {["203.0.113.7" := {| count := 100; resetTime := 60000 |}]}
           "203.0.113.7" {| count := 100; resetTime := 60000 |} 60001 alice
           (repeat (60002, alice) 99)).
  - apply lookup_singleton_eq.
  - cbn. lia.
  - reflexivity.
  - vm_compute. lia.
  - apply from_client_Forall, List.Forall_forall.
    intros r Hr%repeat_spec. subst r. unfold RATE_LIMIT_WINDOW. cbn [fst]. lia.
Defined.

(** ** authMiddleware *)

Lemma prefix_split (p h : string) :
  String.prefix p h = true -> h = p +:+ substring_from (String.length p) h.
Proof.
  revert h. induction p as [|a p IH]; intros h; [reflexivity|].
  destruct h as [|b h]; cbn [String.prefix]; [discriminate|].
  destruct (ascii_dec a b) as [<- | _]; [| discriminate].
  intros H. cbn [String.length substring_from].
  change (String a p +:+ substring_from (String.length p) h)
    with (String a (p +:+ substring_from (String.length p) h)).
  f_equal. exact (IH h H).
Qed.

Lemma prefix_app (p r : string) :
  String.prefix p (p +:+ r) = true
  /\ substring_from (String.length p) (p +:+ r) = r.
Proof.
  induction p as [|a p IH]; [destruct r; split; reflexivity|].
  change (String a p +:+ r) with (String a (p +:+ r)).
  cbn [String.prefix String.length substring_from].
  destruct (ascii_dec a a) as [_ | Hn]; [exact IH | congruence].
Qed.

(** X15. The auth gate lets a request through exactly when its
    [Authorization] header is the secret after the prefix [Bearer ], or is
    the secret itself and does not start with that prefix. *)
Theorem authMiddleware_accepts (secret : string) (c : request) :
  authMiddleware secret c = None <->
  exists h, header c "Authorization" = Some h
            /\ h <> EmptyString
            /\ (h = "Bearer " +:+ secret
                \/ (h = secret /\ startsWith "Bearer " h = false)).
Proof.
  rewrite authMiddleware_passes. unfold presented_token. split.
  - destruct (header c "Authorization") as [h|]; [| discriminate].
    destruct (nonempty h) eqn:Hn; [| discriminate].
    intros [= H]. exists h. split; [reflexivity|].
    split; [intros ->; discriminate Hn|].
    unfold startsWith in *. destruct (String.prefix "Bearer " h) eqn:Hp.
    + left. rewrite <- H. exact (prefix_split "Bearer " h Hp).
    + right. split; [exact H | reflexivity].
  - intros (h & -> & Hne & [-> | [-> Hp]]).
    + destruct (prefix_app "Bearer " secret) as [Hp Hs].
      unfold startsWith. rewrite Hp.
      change (String.length "Bearer ") with 7%nat in Hs. rewrite Hs. reflexivity.
    + rewrite Hp. destruct secret; [congruence | reflexivity].
Qed.

Lemma authMiddleware_accepts_witness :
  authMiddleware "s3cret" (client_request "203.0.113.7" (Some "Bearer s3cret")) = None.
Proof.
  apply (proj2 (authMiddleware_accepts "s3cret"
                  (client_request "203.0.113.7" (Some "Bearer s3cret")))).
  exists "Bearer s3cret". split; [reflexivity|]. split; [discriminate|].
  left. reflexivity.
Defined.

(** ** fetch *)

(** X16. Nothing reaches the database without the secret: a request that
    makes [fetch] send a statement presented the secret, matched one of the
    two routes and was let through by the rate limiter. *)
Theorem fetch_sends_only_authenticated (DB : D1Database) (secret : string)
    (router : request -> route) (m : gmap string entry) (now : Z) (c : request) :
  sent (fetch DB secret router m now c).2 <> [] ->
  presented_token c = Some secret
  /\ router c <> NoRoute
  /\ (rateLimit m now c).2 = None.
Proof.
  unfold fetch.
  destruct (String.eqb (method c) "OPTIONS"); [cbn; congruence|].
  destruct (rateLimit m now c) as [counts [refused|]]; cbn [snd sent reply];
    [congruence|].
  destruct (router c); [| | cbn; congruence];
    (destruct (authMiddleware secret c) eqn:Ha; [cbn; congruence|]);
    apply authMiddleware_passes in Ha; intros _; repeat split;
    try exact Ha; discriminate.
Qed.

Lemma fetch_sends_only_authenticated_witness :
  presented_token (client_request "203.0.113.7" (Some "Bearer s3cret")) = Some "s3cret"
  /\ RestRoute <> NoRoute
  /\ (rateLimit ∅ 0 (client_request "203.0.113.7" (Some "Bearer s3cret"))).2 = None.
Proof.
  apply (fetch_sends_only_authenticated (accepting 1) "s3cret" (fun _ => RestRoute)
           ∅ 0 (client_request "203.0.113.7" (Some "Bearer s3cret"))).
  rewrite fetch_past_cors by discriminate.
  rewrite rateLimit_first by apply lookup_empty.
  cbn. discriminate.
Defined.

(** ** The raw query route *)

(** X17. What the raw query route sends is the [query] string of the body,
    unchanged, with the [params] array of the body (none when it is
    absent); that string is not empty, matches none of the dangerous
    patterns and, when it holds a semicolon, has at most one non-blank
    segment between semicolons. *)
Theorem handleQuery_sent (DB : D1Database) (c : request) (st : statement) :
  In st (sent (handleQuery DB c)) ->
  exists o q,
    req_json c = Fulfilled (VObj o)
    /\ get o "query" = VStr q /\ q <> EmptyString
    /\ sql st = q
    /\ existsb (fun pattern => RegExp.test pattern q) dangerousPatterns = false
    /\ (includes ";" (toLowerCase (trim q)) = true ->
        (length (List.filter (fun part => nonempty (trim part))
                             (split ";" (toLowerCase (trim q)))) <= 1)%nat)
    /\ ((get o "params" = VUndefined /\ params st = [])
        \/ get o "params" = VArr (params st)).
Proof.
  unfold handleQuery, queryStatement.
  destruct (req_json c) as [data | msg]; cbn [await bind]; [| intros []].
  destruct data as [| | b | z | | s | l | o | name]; cbn [member bind truthy negb orb];
    try solve [intros []].
  destruct (get o "query") as [| | b | z | | q | l | o' | name] eqn:Hq;
    cbn [truthy typeof negb orb String.eqb as_string]; try solve [intros []].
  { destruct b; intros []. }
  { destruct (Z.eqb z 0); intros []. }
  destruct (nonempty q) eqn:Hn; cbn [negb orb]; [| intros []].
  destruct (includes ";" (toLowerCase (trim q))
            && Nat.ltb 1 (length (List.filter (fun s => nonempty (trim s))
                                              (split ";" (toLowerCase (trim q))))))%bool
    eqn:Hmulti; [intros []|].
  destruct (existsb (fun pattern => RegExp.test pattern q) dangerousPatterns) eqn:Hd;
    [intros []|].
  assert (Hsegments : includes ";" (toLowerCase (trim q)) = true ->
            (length (List.filter (fun part => nonempty (trim part))
                                 (split ";" (toLowerCase (trim q)))) <= 1)%nat).
  { intros Hi. rewrite Hi in Hmulti. cbn [andb] in Hmulti.
    apply Nat.ltb_ge in Hmulti. exact Hmulti. }
  assert (Hne : q <> EmptyString) by (intros ->; discriminate Hn).
  destruct (get o "params") as [| | b | z | | s | l | o' | name] eqn:Hp;
    cbn [sent reply]; try solve [intros []].
  - intros [<- | []]. exists o, q. cbn [sql params].
    repeat split; try assumption; try reflexivity. left. split; [exact Hp | reflexivity].
  - intros [<- | []]. exists o, q. cbn [sql params].
    repeat split; try assumption; try reflexivity. right. exact Hp.
Qed.

Lemma handleQuery_sent_witness :
  exists o q,
    Fulfilled (VObj [("query", VStr "SELECT * FROM users WHERE id = ?;");
                     ("params", VArr [VNum 7])]) = Fulfilled (VObj o)
    /\ get o "query" = VStr q /\ q <> EmptyString
    /\ "SELECT * FROM users WHERE id = ?;" = q
    /\ existsb (fun pattern => RegExp.test pattern q) dangerousPatterns = false
    /\ (includes ";" (toLowerCase (trim q)) = true ->
        (length (List.filter (fun part => nonempty (trim part))
                             (split ";" (toLowerCase (trim q)))) <= 1)%nat)
    /\ ((get o "params" = VUndefined /\ [VNum 7] = [])
        \/ get o "params" = VArr [VNum 7]).
Proof.
  apply (handleQuery_sent (accepting 1)
           (query_request [] (VObj [("query", VStr "SELECT * FROM users WHERE id = ?;");
                                    ("params", VArr [VNum 7])]))
           {| sql := "SELECT * FROM users WHERE id = ?;"; params := [VNum 7] |}).
  left. reflexivity.
Defined.

(** X18. The raw query route tells nothing about an error: two
    collaborators that answer alike except for the messages of their
    errors give the same outcome, and so do two requests that differ only
    in the message of a body that failed to parse. *)
Theorem handleQuery_hides_messages (DB1 DB2 : D1Database) (c1 c2 : request) :
  same_but_messages DB1 DB2 ->
  match req_json c1, req_json c2 with
  | Fulfilled d1, Fulfilled d2 => d1 = d2
  | Rejected _, Rejected _ => True
  | _, _ => False
  end ->
  handleQuery DB1 c1 = handleQuery DB2 c2.
Proof.
  intros HDB Hbody. unfold handleQuery.
  destruct (req_json c1) as [d1 | m1], (req_json c2) as [d2 | m2];
    try contradiction; [subst d2 | reflexivity].
  destruct (queryStatement (Fulfilled d1)) as [st | msg | r]; try reflexivity.
  specialize (HDB (sql st) (params st)).
  destruct (all DB1 (sql st) (params st)), (all DB2 (sql st) (params st));
    try contradiction; [subst; reflexivity | reflexivity].
Qed.

Lemma handleQuery_hides_messages_witness :
  handleQuery (failing "no such table: users")
              (query_request [] (VObj [("query", VStr "SELECT * FROM users")]))
  = handleQuery (failing "disk I/O error")
                (query_request [] (VObj [("query", VStr "SELECT * FROM users")])).
Proof.
  apply (handleQuery_hides_messages (failing "no such table: users")
           (failing "disk I/O error")
           (query_request [] (VObj [("query", VStr "SELECT * FROM users")]))
           (query_request [] (VObj [("query", VStr "SELECT * FROM users")]))).
  - intros q ps. exact I.
  - reflexivity.
Defined.










